(** * InstaScan: aggregation and analysis engine

    A shallow embedding of [src/Instascan.py] (class [InstaScan]) and the
    properties of its analysis functions.

    Python objects are embedded as follows.
    - [int] is [Z]; a [float] is kept as the rational number it is equal to,
      and the float quotient of two ints ([/]) is the double nearest to their
      quotient.
    - [str] is [string].
    - a [dict] is an association list in insertion order: iteration order is
      observable in the program ([max] over [items()], [keys()] as CSV field
      names).
    - an exception is a value of [exn]; code that may raise returns
      [result A].
    - a lazy provider sequence is the function giving the outcome of its
      n-th [next()] call. *)

From Stdlib Require Import ZArith QArith List String Ascii Bool Lia Arith.
From Stdlib Require Import Permutation DecimalString FinFun.
From Stdlib Require Floats.SpecFloat.
Import ListNotations.

#[local] Set Warnings "-register-all".
Local Open Scope string_scope.
Local Open Scope list_scope.
Local Open Scope Z_scope.

(** ** Python values *)

Module Py.

Inductive key : Type :=
| KStr (s : string)
| KInt (n : Z).

Definition key_eqb (a b : key) : bool :=
  match a, b with
  | KStr s, KStr t => String.eqb s t
  | KInt n, KInt m => Z.eqb n m
  | _, _ => false
  end.

Inductive exn : Type :=
| KeyError (k : key)
| IndexError
| ZeroDivisionError
| ValueError (msg : string)
| ConnectionException (msg : string).

Inductive result (A : Type) : Type :=
| Ok (a : A)
| Raise (e : exn).
Arguments Ok {A} a.
Arguments Raise {A} e.

Definition bind {A B} (m : result A) (k : A -> result B) : result B :=
  match m with
  | Ok a => k a
  | Raise e => Raise e
  end.

(** [try: m except Exception: h] *)
Definition try_except {A} (m : result A) (h : exn -> A) : A :=
  match m with
  | Ok a => a
  | Raise e => h e
  end.

Inductive value : Type :=
| VNone
| VBool (b : bool)
| VInt (n : Z)
| VFloat (q : Q)
| VStr (s : string)
| VList (l : list value)
| VTuple (l : list value)
| VDict (d : list (key * value)).

Definition dict : Type := list (key * value).

(** [d.get(k)] *)
Fixpoint dict_get {V} (d : list (key * V)) (k : key) : option V :=
  match d with
  | [] => None
  | (k', v) :: d' => if key_eqb k' k then Some v else dict_get d' k
  end.

(** [d[k] = v]: an existing key keeps its position, a new key goes last. *)
Fixpoint dict_set {V} (d : list (key * V)) (k : key) (v : V) : list (key * V) :=
  match d with
  | [] => [(k, v)]
  | (k', v') :: d' =>
      if key_eqb k' k then (k', v) :: d' else (k', v') :: dict_set d' k v
  end.

Definition dict_keys {V} (d : list (key * V)) : list key := map fst d.
Definition dict_values {V} (d : list (key * V)) : list V := map snd d.

(** [k in d] *)
Definition dict_mem {V} (d : list (key * V)) (k : key) : bool :=
  match dict_get d k with Some _ => true | None => false end.

(** [d[k] += 1] on a dict of counters; [KeyError] when [k] is missing. *)
Definition dict_incr (d : list (key * Z)) (k : key) : result (list (key * Z)) :=
  match dict_get d k with
  | Some n => Ok (dict_set d k (n + 1))
  | None => Raise (KeyError k)
  end.

(** [d[k] = d.get(k, 0) + 1] *)
Definition dict_count (d : list (key * Z)) (k : key) : list (key * Z) :=
  dict_set d k (match dict_get d k with Some n => n | None => 0 end + 1).

(** [max(items, key=lambda x: x[1])]: the first item whose count is not
    exceeded by any other; [ValueError] on an empty sequence. *)
Fixpoint max_from {K} (best : K * Z) (l : list (K * Z)) : K * Z :=
  match l with
  | [] => best
  | x :: l' => max_from (if snd best <? snd x then x else best) l'
  end.

Definition max_by_count {K} (l : list (K * Z)) : result (K * Z) :=
  match l with
  | [] => Raise (ValueError "max() arg is an empty sequence")
  | x :: l' => Ok (max_from x l')
  end.

(** [sorted(items, key=lambda x: x[1], reverse=True)]: a stable sort, so
    items with equal counts keep their relative order. *)
Fixpoint insert_desc {K} (x : K * Z) (l : list (K * Z)) : list (K * Z) :=
  match l with
  | [] => [x]
  | y :: l' => if snd x <? snd y then y :: insert_desc x l' else x :: y :: l'
  end.

Definition sorted_desc {K} (l : list (K * Z)) : list (K * Z) :=
  fold_right insert_desc [] l.

(** [l[i]] for [i >= 0] *)
Definition list_index {A} (l : list A) (i : Z) : result A :=
  if i <? 0 then Raise IndexError
  else match nth_error l (Z.to_nat i) with
       | Some x => Ok x
       | None => Raise IndexError
       end.

(** [l[-1]] *)
Fixpoint list_last {A} (l : list A) : result A :=
  match l with
  | [] => Raise IndexError
  | [x] => Ok x
  | _ :: l' => list_last l'
  end.

(** [range(n)] *)
Definition range (n : nat) : list Z := map Z.of_nat (seq 0 n).

(** [len(l)] *)
Definition len {A} (l : list A) : Z := Z.of_nat (List.length l).

(** *** Floats

    A float is kept as the rational number it is equal to. *)

(** [n / (d * 2 ^ e)] as a fraction of ints. *)
Definition scaled (n d e : Z) : Z * Z :=
  if 0 <=? e then (n, d * 2 ^ e) else (n * 2 ^ (- e), d).

(** The integer nearest to [num / den], a tie going to the even one. *)
Definition round_half_even (num den : Z) : Z :=
  let q := num / den in
  let r := num mod den in
  if (den <? 2 * r) || ((den =? 2 * r) && Z.odd q) then q + 1 else q.

(** The mantissa [m] and the exponent [e] of the double [m * 2 ^ e] nearest
    to [n / d], for [n] and [d] positive: the exponent is the one at which
    the quotient has 53 bits. Quotients beyond the range of the exponent of a
    double, where Python raises [OverflowError] or rounds to a subnormal,
    need an int of a thousand bits and are left out. *)
Definition round_mantissa (n d : Z) : Z * Z :=
  let e0 := Z.log2 n - Z.log2 d - 53 in
  let e := if 2 ^ 53 <=? fst (scaled n d e0) / snd (scaled n d e0)
           then e0 + 1 else e0 in
  (round_half_even (fst (scaled n d e)) (snd (scaled n d e)), e).

(** The float [a / b] of two ints, [b] not 0: the double nearest to the
    quotient. *)
Definition float_quotient (a b : Z) : Q :=
  if a =? 0 then 0%Q
  else
    let me := round_mantissa (Z.abs a) (Z.abs b) in
    let m := Z.sgn a * Z.sgn b * fst me in
    Qred (if 0 <=? snd me then Qmake (m * 2 ^ snd me) 1
          else Qmake m (Z.to_pos (2 ^ (- snd me)))).

(** [a / b] on ints *)
Definition truediv (a b : Z) : result Q :=
  if b =? 0 then Raise ZeroDivisionError
  else Ok (float_quotient a b).

(** [str(n)] for an int *)
Definition str_of_int (n : Z) : string := NilZero.string_of_int (Z.to_int n).

(** [str(e)] *)
Definition str_of_exn (e : exn) : string :=
  match e with
  | KeyError (KStr s) => ("'" ++ s ++ "'")%string
  | KeyError (KInt n) => str_of_int n
  | IndexError => "list index out of range"
  | ZeroDivisionError => "division by zero"
  | ValueError m => m
  | ConnectionException m => m
  end.

(** ["%02d"] and the like: decimal digits, zero-padded on the left. *)
Fixpoint zeros (n : nat) : string :=
  match n with O => "" | S n' => String "0" (zeros n') end.

Definition zero_pad (width : nat) (n : Z) : string :=
  let s := str_of_int n in
  (zeros (width - String.length s) ++ s)%string.

(** *** String methods used to derive a platform label *)

Fixpoint drop (n : nat) (s : string) : string :=
  match n, s with
  | O, _ => s
  | S n', String _ s' => drop n' s'
  | S _, EmptyString => EmptyString
  end.

(** [s.replace(old, "")] for a non-empty [old] *)
Fixpoint remove_all (fuel : nat) (old s : string) : string :=
  match fuel with
  | O => s
  | S fuel' =>
      match s with
      | EmptyString => EmptyString
      | String c s' =>
          if String.prefix old s
          then remove_all fuel' old (drop (String.length old) s)
          else String c (remove_all fuel' old s')
      end
  end.

Definition str_remove (old s : string) : string :=
  remove_all (String.length s) old s.

(** [s.split(sep)[0]] for a one-character [sep] *)
Fixpoint first_segment (sep : ascii) (s : string) : string :=
  match s with
  | EmptyString => EmptyString
  | String c s' =>
      if Ascii.eqb c sep then EmptyString else String c (first_segment sep s')
  end.

Definition upper (c : ascii) : ascii :=
  let n := nat_of_ascii c in
  if ((97 <=? n) && (n <=? 122))%nat then ascii_of_nat (n - 32) else c.

Definition lower (c : ascii) : ascii :=
  let n := nat_of_ascii c in
  if ((65 <=? n) && (n <=? 90))%nat then ascii_of_nat (n + 32) else c.

Fixpoint str_map (f : ascii -> ascii) (s : string) : string :=
  match s with
  | EmptyString => EmptyString
  | String c s' => String (f c) (str_map f s')
  end.

(** [s.capitalize()] *)
Definition capitalize (s : string) : string :=
  match s with
  | EmptyString => EmptyString
  | String c s' => String (upper c) (str_map lower s')
  end.

(** [urlparse(url).netloc] for an absolute URL [scheme://host/...] *)
Fixpoint after_slashes (s : string) : string :=
  match s with
  | EmptyString => EmptyString
  | String c s' =>
      if String.prefix "://" s then drop 3 s else after_slashes s'
  end.

Fixpoint until_delim (s : string) : string :=
  match s with
  | EmptyString => EmptyString
  | String c s' =>
      if (Ascii.eqb c "/" || Ascii.eqb c "?" || Ascii.eqb c "#")%bool
      then EmptyString
      else String c (until_delim s')
  end.

Definition netloc (url : string) : string := until_delim (after_slashes url).

End Py.

Import Py.

Notation "x <- m ;; k" := (bind m (fun x => k))
  (at level 61, m at next level, right associativity).

(** ** [datetime]: naive date-times and their differences *)

Module DateTime.

Record datetime : Type := mk_datetime {
  year : Z; month : Z; day : Z;
  hour : Z; minute : Z; second : Z; microsecond : Z
}.

Definition is_leap (y : Z) : bool :=
  (y mod 4 =? 0) && (negb (y mod 100 =? 0) || (y mod 400 =? 0)).

Definition days_before_year (y : Z) : Z :=
  let y := y - 1 in y * 365 + y / 4 - y / 100 + y / 400.

Definition DAYS_IN_MONTH : list Z := [31; 28; 31; 30; 31; 30; 31; 31; 30; 31; 30; 31].

Definition days_in_month (y m : Z) : Z :=
  if (m =? 2) && is_leap y then 29
  else nth (Z.to_nat (m - 1)) DAYS_IN_MONTH 0.

Definition DAYS_BEFORE_MONTH : list Z :=
  [0; 31; 59; 90; 120; 151; 181; 212; 243; 273; 304; 334].

Definition days_before_month (y m : Z) : Z :=
  nth (Z.to_nat (m - 1)) DAYS_BEFORE_MONTH 0
  + (if (2 <? m) && is_leap y then 1 else 0).

(** [toordinal()]: 1 January of year 1 is day 1. *)
Definition toordinal (t : datetime) : Z :=
  days_before_year (year t) + days_before_month (year t) (month t) + day t.

(** [weekday()]: Monday is 0, Sunday is 6. *)
Definition weekday (t : datetime) : Z := (toordinal t + 6) mod 7.

(** The field ranges every [datetime] object satisfies. *)
Definition valid (t : datetime) : bool :=
  (1 <=? year t) && (year t <=? 9999) &&
  (1 <=? month t) && (month t <=? 12) &&
  (1 <=? day t) && (day t <=? days_in_month (year t) (month t)) &&
  (0 <=? hour t) && (hour t <? 24) &&
  (0 <=? minute t) && (minute t <? 60) &&
  (0 <=? second t) && (second t <? 60) &&
  (0 <=? microsecond t) && (microsecond t <? 1000000).

Record timedelta : Type := mk_timedelta {
  days : Z; seconds : Z; microseconds : Z
}.

(** [timedelta(days, seconds, microseconds)], normalised so that
    [0 <= seconds < 86400] and [0 <= microseconds < 1000000]. *)
Definition new_timedelta (d s us : Z) : timedelta :=
  let s := s + us / 1000000 in
  {| days := d + s / 86400;
     seconds := s mod 86400;
     microseconds := us mod 1000000 |}.

(** [a - b] *)
Definition sub (a b : datetime) : timedelta :=
  let secs t := second t + minute t * 60 + hour t * 3600 in
  new_timedelta (toordinal a - toordinal b) (secs a - secs b)
                (microsecond a - microsecond b).

(** Microseconds since the start of day 0. *)
Definition total_us (t : datetime) : Z :=
  ((toordinal t * 86400 + (second t + minute t * 60 + hour t * 3600)) * 1000000)
  + microsecond t.

(** [strftime("%Y-%m-%d %H:%M:%S")] *)
Definition strftime (t : datetime) : string :=
  (zero_pad 4 (year t) ++ "-" ++ zero_pad 2 (month t) ++ "-" ++
   zero_pad 2 (day t) ++ " " ++ zero_pad 2 (hour t) ++ ":" ++
   zero_pad 2 (minute t) ++ ":" ++ zero_pad 2 (second t))%string.

End DateTime.

Import DateTime.

(** ** The provider's objects *)

Record PostLocation : Type := {
  loc_name : string; loc_id : Z; loc_lat : option Q; loc_lng : option Q
}.

Record Post : Type := {
  shortcode : string;
  date_utc : datetime;
  likes : Z;
  comments : Z;
  caption : option string;
  location : option PostLocation;
  caption_hashtags : list string;
  caption_mentions : list string;
  is_video : bool
}.

Record Profile_node : Type := {
  username : string; full_name : string; is_verified : bool
}.

(** Outcome of one [next()] call on a provider sequence. *)
Inductive pull (A : Type) : Type :=
| Yield (a : A)
| StopIteration
| Raises (e : exn).
Arguments Yield {A} a.
Arguments StopIteration {A}.
Arguments Raises {A} e.

(** A lazy sequence: the outcome of its n-th [next()] call, counted from 0.
    It may yield for ever. *)
Definition iterator (A : Type) : Type := nat -> pull A.

(** The sequence yielding the items of [l] and then ending with [last]. *)
Definition iter_of {A} (l : list A) (last : pull A) : iterator A :=
  fun n => match nth_error l n with Some a => Yield a | None => last end.

Definition opt_float (q : option Q) : value :=
  match q with Some x => VFloat x | None => VNone end.

Definition count_items (d : list (key * Z)) : list value :=
  map (fun kv => VTuple [match fst kv with KStr s => VStr s | KInt n => VInt n end;
                         VInt (snd kv)]) d.

Definition count_dict (d : list (key * Z)) : dict :=
  map (fun kv => (fst kv, VInt (snd kv))) d.

(** ** [InstaScan] *)

Module InstaScan.

(** *** [analyze_posting_patterns] *)

Definition days_of_week : list string :=
  ["Monday"; "Tuesday"; "Wednesday"; "Thursday"; "Friday"; "Saturday"; "Sunday"].

Definition counts : Type := list (key * Z).

(** [for post_time in post_times: ...] *)
Fixpoint tally (post_times : list datetime) (day_counts hour_counts : counts)
  : result (counts * counts) :=
  match post_times with
  | [] => Ok (day_counts, hour_counts)
  | post_time :: rest =>
      d <- list_index days_of_week (weekday post_time) ;;
      day_counts' <- dict_incr day_counts (KStr d) ;;
      hour_counts' <- dict_incr hour_counts (KInt (hour post_time)) ;;
      tally rest day_counts' hour_counts'
  end.

Definition key_value (k : key) : value :=
  match k with KStr s => VStr s | KInt n => VInt n end.

(** [len(post_times) / max((post_times[0] - post_times[-1]).days, 1)
     if len(post_times) > 1 else 0] *)
Definition post_frequency_days (post_times : list datetime) : result value :=
  if 1 <? len post_times then
    first <- list_index post_times 0 ;;
    last <- list_last post_times ;;
    q <- truediv (len post_times) (Z.max (days (sub first last)) 1) ;;
    Ok (VFloat q)
  else Ok (VInt 0).

Definition analyze_posting_patterns (post_times : list datetime) : result dict :=
  match post_times with
  | [] => Ok []
  | _ :: _ =>
      let day_counts := map (fun d => (KStr d, 0)) days_of_week in
      let hour_counts := map (fun h => (KInt h, 0)) (range 24) in
      c <- tally post_times day_counts hour_counts ;;
      let day_counts := fst c in
      let hour_counts := snd c in
      most_active_day <- max_by_count day_counts ;;
      most_active_hour <- max_by_count hour_counts ;;
      freq <- post_frequency_days post_times ;;
      Ok [(KStr "most_active_day", key_value (fst most_active_day));
          (KStr "day_activity", VDict (count_dict day_counts));
          (KStr "most_active_hour", key_value (fst most_active_hour));
          (KStr "hour_activity", VDict (count_dict hour_counts));
          (KStr "post_frequency_days", freq)]
  end.

(** *** [analyze_posts] *)

Record acc : Type := {
  posts_data : list value;
  locations : list value;
  hashtags : counts;
  mentions : counts;
  post_times : list datetime
}.

Definition empty_acc : acc :=
  {| posts_data := []; locations := []; hashtags := []; mentions := [];
     post_times := [] |}.

Definition post_url (post : Post) : string :=
  ("https://www.instagram.com/p/" ++ shortcode post ++ "/")%string.

Definition post_data (post : Post) : value :=
  VDict
    [(KStr "shortcode", VStr (shortcode post));
     (KStr "url", VStr (post_url post));
     (KStr "timestamp", VStr (strftime (date_utc post)));
     (KStr "likes", VInt (likes post));
     (KStr "comments", VInt (comments post));
     (KStr "caption", VStr (match caption post with Some c => c | None => "" end));
     (KStr "location",
       match location post with Some l => VStr (loc_name l) | None => VNone end);
     (KStr "hashtags", VList (map VStr (caption_hashtags post)));
     (KStr "mentioned_users", VList (map VStr (caption_mentions post)));
     (KStr "is_video", VBool (is_video post))].

Definition location_entry (post : Post) (l : PostLocation) : value :=
  VDict
    [(KStr "name", VStr (loc_name l));
     (KStr "id", VInt (loc_id l));
     (KStr "lat", opt_float (loc_lat l));
     (KStr "lng", opt_float (loc_lng l));
     (KStr "post_url", VStr (post_url post))].

(** The body of the loop over the posts, below the [break] test. *)
Definition process_post (st : acc) (post : Post) : acc :=
  {| posts_data := posts_data st ++ [post_data post];
     locations :=
       match location post with
       | Some l => locations st ++ [location_entry post l]
       | None => locations st
       end;
     hashtags :=
       fold_left (fun h tag => dict_count h (KStr tag)) (caption_hashtags post)
                 (hashtags st);
     mentions :=
       fold_left (fun m mention => dict_count m (KStr mention))
                 (caption_mentions post) (mentions st);
     post_times := post_times st ++ [date_utc post] |}.

(** How the loop over the posts ends; [taken] counts the posts the loop
    has taken out of the provider sequence. *)
Inductive loop_end : Type :=
| Finished (st : acc) (taken : nat)
| Failed (e : exn) (taken : nat)
| OutOfFuel.

(** [for i, post in enumerate(posts): if i >= self.max_posts: break; ...] *)
Fixpoint posts_loop (fuel : nat) (posts : iterator Post) (max_posts : Z)
    (i : nat) (st : acc) : loop_end :=
  match fuel with
  | O => OutOfFuel
  | S fuel' =>
      match posts i with
      | StopIteration => Finished st i
      | Raises e => Failed e i
      | Yield post =>
          if Z.of_nat i >=? max_posts then Finished st (S i)
          else posts_loop fuel' posts max_posts (S i) (process_post st post)
      end
  end.

(** The statements after the loop, inside the [try]. *)
Definition analysis_results (st : acc) : result dict :=
  let top_hashtags := sorted_desc (hashtags st) in
  let top_mentions := sorted_desc (mentions st) in
  time_patterns <- analyze_posting_patterns (post_times st) ;;
  Ok [(KStr "posts_analyzed", VInt (len (posts_data st)));
      (KStr "posts_data", VList (posts_data st));
      (KStr "locations", VList (locations st));
      (KStr "top_hashtags", VList (count_items (firstn 20 top_hashtags)));
      (KStr "top_mentions", VList (count_items (firstn 20 top_mentions)));
      (KStr "time_patterns", VDict time_patterns)].

(** The dictionary returned by the [except Exception] clause. *)
Definition empty_results : dict :=
  [(KStr "posts_analyzed", VInt 0);
   (KStr "posts_data", VList []);
   (KStr "locations", VList []);
   (KStr "top_hashtags", VList []);
   (KStr "top_mentions", VList []);
   (KStr "time_patterns", VDict [])].

(** [analyze_posts]: [None] only if [fuel] loop iterations were not enough. *)
Definition analyze_posts (fuel : nat) (posts : iterator Post) (max_posts : Z)
  : option dict :=
  match posts_loop fuel posts max_posts 0 empty_acc with
  | Finished st _ => Some (try_except (analysis_results st) (fun _ => empty_results))
  | Failed _ _ => Some empty_results
  | OutOfFuel => None
  end.

(** The number of posts [analyze_posts] takes from the provider sequence. *)
Definition posts_consumed (fuel : nat) (posts : iterator Post) (max_posts : Z)
  : option nat :=
  match posts_loop fuel posts max_posts 0 empty_acc with
  | Finished _ n => Some n
  | Failed _ n => Some n
  | OutOfFuel => None
  end.

(** *** [analyze_connections] *)

(** A follower or followee sequence: the nodes it yields, and the exception
    that ends it if it does not end normally. The loops over these sequences
    have no cut-off, so only sequences with an end let the function return. *)
Record node_sequence : Type := {
  nodes : list Profile_node;
  failure : option exn
}.

Record connection : Type := {
  conn_username : string; conn_full_name : string; conn_is_verified : bool
}.

Definition connection_of (n : Profile_node) : connection :=
  {| conn_username := username n;
     conn_full_name := full_name n;
     conn_is_verified := is_verified n |}.

Definition connection_dict (c : connection) : value :=
  VDict [(KStr "username", VStr (conn_username c));
         (KStr "full_name", VStr (conn_full_name c));
         (KStr "is_verified", VBool (conn_is_verified c))].

(** [for node in sequence: l.append({...})] *)
Definition collect (s : node_sequence) : result (list connection) :=
  match failure s with
  | None => Ok (map connection_of (nodes s))
  | Some e => Raise e
  end.

(** [x in l] for a list of strings *)
Definition str_in (x : string) (l : list string) : bool :=
  existsb (String.eqb x) l.

(** [[user["username"] for user in xs
      if user["username"] not in [f["username"] for f in ys]]] *)
Definition usernames_not_in (xs ys : list connection) : list string :=
  map conn_username
    (filter (fun user => negb (str_in (conn_username user) (map conn_username ys)))
            xs).

Definition connections_data (followers following : list connection) : dict :=
  let not_following_back := usernames_not_in following followers in
  let not_followed_back := usernames_not_in followers following in
  [(KStr "followers_count", VInt (len followers));
   (KStr "following_count", VInt (len following));
   (KStr "not_following_back", VList (map VStr not_following_back));
   (KStr "not_followed_back", VList (map VStr not_followed_back));
   (KStr "followers", VList (map connection_dict followers));
   (KStr "following", VList (map connection_dict following))].

(** The dictionary returned on every path that gives up. *)
Definition no_connections : dict :=
  [(KStr "followers", VList []); (KStr "following", VList [])].

Definition analyze_connections (is_private is_logged_in : bool)
    (get_followers get_followees : node_sequence) : dict :=
  if is_private then no_connections
  else if negb is_logged_in then no_connections
  else
    try_except
      (followers <- collect get_followers ;;
       following <- collect get_followees ;;
       Ok (connections_data followers following))
      (fun _ => no_connections).

(** *** [search_external_references] *)

Definition sites_to_check (target : string) : list string :=
  [("https://twitter.com/" ++ target)%string;
   ("https://www.facebook.com/" ++ target)%string;
   ("https://www.tiktok.com/@" ++ target)%string;
   ("https://www.reddit.com/user/" ++ target)%string;
   ("https://www.linkedin.com/in/" ++ target)%string;
   ("https://github.com/" ++ target)%string;
   ("https://www.youtube.com/user/" ++ target)%string].

(** [domain.split(".")[0].capitalize()] with
    [domain = urlparse(url).netloc.replace("www.", "")] *)
Definition platform (url : string) : string :=
  capitalize (first_segment "." (str_remove "www." (netloc url))).

(** [requests.get(url, headers=..., timeout=...)]: the status code of the
    response received, or the exception raised when none is. *)
Definition http_get : Type := string -> result Z.

Definition check_url (get : http_get) (url : string) : dict :=
  try_except
    (status_code <- get url ;;
     if status_code =? 200 then
       Ok [(KStr "platform", VStr (platform url));
           (KStr "url", VStr url);
           (KStr "status", VStr "Found");
           (KStr "response_code", VInt status_code)]
     else
       Ok [(KStr "platform", VStr (platform url));
           (KStr "url", VStr url);
           (KStr "status", VStr "Not found");
           (KStr "response_code", VInt status_code)])
    (fun e =>
       [(KStr "platform", VStr (platform url));
        (KStr "url", VStr url);
        (KStr "status", VStr "Error");
        (KStr "response_code", VStr (str_of_exn e))]).

(** [ThreadPoolExecutor.map(fn, inputs)]: one future per input, in the order
    of the inputs; the workers complete the tasks in the order [schedule]
    gives their indices; the results are then read future by future. A future
    no worker completed is never read: [None]. *)
Fixpoint set_future {B} (fs : list (option B)) (i : nat) (b : B)
  : list (option B) :=
  match fs, i with
  | [], _ => []
  | _ :: fs', O => Some b :: fs'
  | f :: fs', S i' => f :: set_future fs' i' b
  end.

Fixpoint run_tasks {A B} (fn : A -> B) (inputs : list A) (schedule : list nat)
    (fs : list (option B)) : list (option B) :=
  match schedule with
  | [] => fs
  | i :: rest =>
      run_tasks fn inputs rest
        (match nth_error inputs i with
         | Some a => set_future fs i (fn a)
         | None => fs
         end)
  end.

Fixpoint read_futures {B} (fs : list (option B)) : option (list B) :=
  match fs with
  | [] => Some []
  | None :: _ => None
  | Some b :: fs' =>
      match read_futures fs' with
      | Some bs => Some (b :: bs)
      | None => None
      end
  end.

Definition executor_map {A B} (fn : A -> B) (inputs : list A)
    (schedule : list nat) : option (list B) :=
  read_futures
    (run_tasks fn inputs schedule (repeat None (List.length inputs))).

(** The probing of a list of URLs, as [search_external_references] does it
    for [sites_to_check]. *)
Definition probe (get : http_get) (urls : list string) (schedule : list nat)
  : option (list dict) :=
  executor_map (check_url get) urls schedule.

Definition search_external_references (get : http_get) (target : string)
    (schedule : list nat) : option (list dict) :=
  probe get (sites_to_check target) schedule.

(** *** [export_results], the [csv] format *)

Definition row : Type := list value.

(** [csv.DictWriter(f, fieldnames=keys)] with its defaults [restval=""] and
    [extrasaction="raise"]: the cells of one row. *)
Definition dict_to_list (fieldnames : list key) (rowdict : dict) : result row :=
  let wrong_fields :=
    filter (fun k => negb (existsb (key_eqb k) fieldnames)) (dict_keys rowdict) in
  match wrong_fields with
  | [] =>
      Ok (map (fun k => match dict_get rowdict k with
                        | Some v => v
                        | None => VStr ""
                        end) fieldnames)
  | _ :: _ => Raise (ValueError "dict contains fields not in fieldnames")
  end.

(** [writer.writerows(rowdicts)]: the rows are written one by one; the rows
    before a rejected one are already in the file. *)
Fixpoint writerows (fieldnames : list key) (rowdicts : list dict) (file : list row)
  : list row * result unit :=
  match rowdicts with
  | [] => (file, Ok tt)
  | rowdict :: rest =>
      match dict_to_list fieldnames rowdict with
      | Ok r => writerows fieldnames rest (file ++ [r])
      | Raise e => (file, Raise e)
      end
  end.

(** One CSV artifact whose header is the first record's keys. *)
Definition write_table (records : list dict) : list row * result unit :=
  match records with
  | [] => ([], Ok tt)
  | first :: _ =>
      let keys := dict_keys first in
      writerows keys records [map key_value keys]
  end.

Definition file_system : Type := list (string * list row).

(** The [csv] branch of [export_results]: the files written, and the
    exception that leaves the function if one does. *)
Definition export_results_csv (output_file : string) (profile_data : dict)
    (posts_data locations : list dict) : file_system * result unit :=
  let fs := [((output_file ++ "_profile.csv")%string,
              [map key_value (dict_keys profile_data); dict_values profile_data])] in
  let after_posts :=
    match posts_data with
    | [] => (fs, Ok tt)
    | _ :: _ =>
        let w := write_table posts_data in
        (fs ++ [((output_file ++ "_posts.csv")%string, fst w)], snd w)
    end in
  match snd after_posts with
  | Raise e => (fst after_posts, Raise e)
  | Ok _ =>
      match locations with
      | [] => (fst after_posts, Ok tt)
      | _ :: _ =>
          let w := write_table locations in
          (fst after_posts ++ [((output_file ++ "_locations.csv")%string, fst w)],
           snd w)
      end
  end.

End InstaScan.

Import InstaScan.

(** ** Notions the properties are stated with *)

Module Spec.

(** The number of timestamps satisfying [p]. *)
Definition count_where (p : datetime -> bool) (ts : list datetime) : Z :=
  len (filter p ts).

(** The name of the day a timestamp falls on. *)
Definition day_name (t : datetime) : string :=
  nth (Z.to_nat (weekday t)) days_of_week "".

(** The histogram with one bucket per key, in the order of [keys]. *)
Definition hist (keys : list key) (f : key -> Z) : counts :=
  map (fun k => (k, f k)) keys.

Definition day_keys : list key := map KStr days_of_week.
Definition hour_keys : list key := map KInt (range 24).

(** Monday to Sunday, each with the number of timestamps on that day. *)
Definition day_histogram (ts : list datetime) : counts :=
  hist day_keys
       (fun k => count_where (fun t => key_eqb (KStr (day_name t)) k) ts).

(** Hours 0 to 23, each with the number of timestamps in that hour. *)
Definition hour_histogram (ts : list datetime) : counts :=
  hist hour_keys (fun k => count_where (fun t => key_eqb (KInt (hour t)) k) ts).

(** [k] is the first bucket of [l] holding the maximum count: the buckets
    before it hold strictly less, those after it no more. *)
Definition first_max (k : key) (l : counts) : Prop :=
  exists pre n post,
    l = pre ++ (k, n) :: post /\
    (forall x, In x pre -> snd x < n) /\
    (forall x, In x post -> snd x <= n).

Definition US_PER_DAY : Z := 86400000000.

Definition earliest_us (ts : list datetime) : Z :=
  match ts with
  | [] => 0
  | t :: rest => fold_left (fun m x => Z.min m (total_us x)) rest (total_us t)
  end.

Definition latest_us (ts : list datetime) : Z :=
  match ts with
  | [] => 0
  | t :: rest => fold_left (fun m x => Z.max m (total_us x)) rest (total_us t)
  end.

(** The whole days between the chronologically first and last timestamp. *)
Definition days_between (ts : list datetime) : Z :=
  (latest_us ts - earliest_us ts) / US_PER_DAY.

(** [count(timestamps) / max(days_between(earliest, latest), 1)] *)
Definition span_frequency (ts : list datetime) : Q :=
  Qmake (len ts) (Z.to_pos (Z.max (days_between ts) 1)).

(** The bundle built from exactly the posts [ps]. *)
Definition bundle_of (ps : list Post) : dict :=
  try_except (analysis_results (fold_left process_post ps empty_acc))
             (fun _ => empty_results).

(** A record has no field outside [keys]. *)
Definition fields_within (keys : list key) (r : dict) : Prop :=
  forall k, In k (dict_keys r) -> In k keys.

(** The cells of a record under the header [keys], an absent field read as
    the empty string. *)
Definition cells (keys : list key) (r : dict) : row :=
  map (fun k => match dict_get r k with Some v => v | None => VStr "" end) keys.

(** Every future is pending or holds the result of its own task. *)
Definition futures_ok {A B} (fn : A -> B) (inputs : list A)
    (fs : list (option B)) : Prop :=
  List.length fs = List.length inputs /\
  forall j a, nth_error inputs j = Some a ->
    nth_error fs j = Some None \/ nth_error fs j = Some (Some (fn a)).

(** The keys of the dictionary [analyze_connections] builds when both
    enumerations succeed. *)
Definition connection_keys : list key :=
  [KStr "followers_count"; KStr "following_count";
   KStr "not_following_back"; KStr "not_followed_back";
   KStr "followers"; KStr "following"].

End Spec.

Import Spec.

(** ** The rest of the scan: profile data, orchestration, export documents *)

Module Profile.

(** The attributes of a provider profile that the scan reads. *)
Record t : Type := {
  username : string;
  userid : Z;
  full_name : string;
  biography : string;
  external_url : option string;
  followers : Z;
  followees : Z;
  is_private : bool;
  is_verified : bool;
  mediacount : Z;
  igtvcount : Z;
  profile_pic_url : string
}.

End Profile.

Module Scan.

(** A call either returns or ends the process with [sys.exit(code)]. *)
Inductive outcome (A : Type) : Type :=
| Returns (a : A)
| SysExit (code : Z).
Arguments Returns {A} a.
Arguments SysExit {A} code.

(** The dictionary built by [get_profile_data]; [now] is the clock read for
    [scrape_time]. *)
Definition profile_data_of (profile : Profile.t) (now : datetime) : dict :=
  [(KStr "username", VStr (Profile.username profile));
   (KStr "user_id", VInt (Profile.userid profile));
   (KStr "full_name", VStr (Profile.full_name profile));
   (KStr "biography", VStr (Profile.biography profile));
   (KStr "external_url",
     match Profile.external_url profile with Some u => VStr u | None => VNone end);
   (KStr "followers_count", VInt (Profile.followers profile));
   (KStr "following_count", VInt (Profile.followees profile));
   (KStr "is_private", VBool (Profile.is_private profile));
   (KStr "is_verified", VBool (Profile.is_verified profile));
   (KStr "posts_count", VInt (Profile.mediacount profile));
   (KStr "igtv_count", VInt (Profile.igtvcount profile));
   (KStr "profile_pic_url", VStr (Profile.profile_pic_url profile));
   (KStr "scrape_time", VStr (strftime now))].

(** [get_profile_data]: [from_username] is the outcome of
    [Profile.from_username]; both [except] clauses end the process with
    status 1. *)
Definition get_profile_data (from_username : result Profile.t) (now : datetime)
  : outcome (Profile.t * dict) :=
  match from_username with
  | Ok profile => Returns (profile, profile_data_of profile now)
  | Raise _ => SysExit 1
  end.

(** What the provider answers during one scan. *)
Record provider : Type := {
  from_username : result Profile.t;
  get_posts : iterator Post;
  get_followers : node_sequence;
  get_followees : node_sequence;
  is_logged_in : bool
}.

(** The four arguments [run] passes to [export_results]. *)
Record scan : Type := {
  profile_data : dict;
  posts_analysis : dict;
  connections : option dict;
  external_refs : option (list dict)
}.

(** [run], up to the call of [export_results]. [None] only if [fuel] or
    [schedule] do not let a stage finish. *)
Definition run (P : provider) (target : string) (max_posts : Z)
    (external_search : bool) (get : http_get) (now : datetime)
    (fuel : nat) (schedule : list nat) : option (outcome scan) :=
  match get_profile_data (from_username P) now with
  | SysExit code => Some (SysExit code)
  | Returns (profile, profile_data) =>
      match analyze_posts fuel (get_posts P) max_posts with
      | None => None
      | Some posts_analysis =>
          let connections :=
            if is_logged_in P && negb (Profile.is_private profile)
            then Some (analyze_connections (Profile.is_private profile)
                                           (is_logged_in P)
                                           (get_followers P) (get_followees P))
            else None in
          let external_refs :=
            if external_search
            then option_map Some (search_external_references get target schedule)
            else Some None in
          match external_refs with
          | None => None
          | Some external_refs =>
              Some (Returns {| profile_data := profile_data;
                               posts_analysis := posts_analysis;
                               connections := connections;
                               external_refs := external_refs |})
          end
      end
  end.

(** [strftime("%Y%m%d_%H%M%S")] *)
Definition strftime_compact (t : datetime) : string :=
  (zero_pad 4 (year t) ++ zero_pad 2 (month t) ++ zero_pad 2 (day t) ++ "_" ++
   zero_pad 2 (hour t) ++ zero_pad 2 (minute t) ++ zero_pad 2 (second t))%string.

(** [f"{self.results_dir}/{self.target}_{timestamp}"] *)
Definition output_file (results_dir target timestamp : string) : string :=
  (results_dir ++ "/" ++ target ++ "_" ++ timestamp)%string.

(** The dictionary [results] that [export_results] prepares. *)
Definition scan_results (target timestamp : string) (s : scan) : dict :=
  [(KStr "profile_data", VDict (profile_data s));
   (KStr "posts_analysis", VDict (posts_analysis s));
   (KStr "connections",
     VDict (match connections s with
            | Some (_ :: _ as c) => c
            | _ => []
            end));
   (KStr "external_references",
     VList (match external_refs s with
            | Some (_ :: _ as refs) => map VDict refs
            | _ => []
            end));
   (KStr "scan_metadata",
     VDict [(KStr "timestamp", VStr timestamp);
            (KStr "tool", VStr "InstaScan");
            (KStr "target", VStr target)])].

(** The [json] branch of [export_results]: the name of the file and the
    document handed to [json.dump]. *)
Definition export_results_json (results_dir target : string) (now : datetime)
    (s : scan) : string * dict :=
  let timestamp := strftime_compact now in
  ((output_file results_dir target timestamp ++ ".json")%string,
   scan_results target timestamp s).

(** The dictionaries in a list of records; [None] if an element is none. *)
Fixpoint dicts_in (l : list value) : option (list dict) :=
  match l with
  | [] => Some []
  | VDict d :: l' =>
      match dicts_in l' with Some ds => Some (d :: ds) | None => None end
  | _ :: _ => None
  end.

(** [posts_analysis[name]] as a list of records; [None] if the bundle has
    no such list. *)
Definition records (posts_analysis : dict) (name : string) : option (list dict) :=
  match dict_get posts_analysis (KStr name) with
  | Some (VList l) => dicts_in l
  | _ => None
  end.

(** The [csv] branch of [export_results] on the arguments [run] passes. *)
Definition export_scan_csv (results_dir target : string) (now : datetime)
    (s : scan) : option (file_system * result unit) :=
  match records (posts_analysis s) "posts_data",
        records (posts_analysis s) "locations" with
  | Some posts_data, Some locations =>
      Some (export_results_csv
              (output_file results_dir target (strftime_compact now))
              (profile_data s) posts_data locations)
  | _, _ => None
  end.

(** [login]: the outcomes of [L.login] and of [L.save_session_to_file]. *)
Definition login (do_login save_session : result unit) : bool :=
  try_except (_ <- do_login ;; _ <- save_session ;; Ok true) (fun _ => false).

End Scan.

Import Scan.

(** ** Further notions *)

Module Notions.

(** The sum of the counts of a table. *)
Definition total (l : counts) : Z := fold_right Z.add 0 (map snd l).

(** The count a table holds for a key, 0 if the key is absent. *)
Definition count_of (d : counts) (k : key) : Z :=
  match dict_get d k with Some n => n | None => 0 end.

(** The number of occurrences of [x] in [l]. *)
Definition occurrences (x : string) (l : list string) : Z :=
  len (filter (String.eqb x) l).

(** The counts never go up along the list. *)
Fixpoint descending (l : counts) : Prop :=
  match l with
  | [] => True
  | x :: l' => (forall y, In y l' -> snd y <= snd x) /\ descending l'
  end.

(** The entries of [l] holding the count [c], in their order. *)
Definition with_count (c : Z) (l : counts) : counts :=
  filter (fun x => snd x =? c) l.

(** The location entries of the posts that carry a location. *)
Definition located (ps : list Post) : list value :=
  flat_map (fun p => match location p with
                     | Some l => [location_entry p l]
                     | None => []
                     end) ps.

Definition fields_of (v : value) : dict :=
  match v with VDict d => d | _ => [] end.

(** The platform labels of [sites_to_check], in order. *)
Definition platform_labels : list string :=
  ["Twitter"; "Facebook"; "Tiktok"; "Reddit"; "Linkedin"; "Github"; "Youtube"].

(** The field names of a post record and of a location record. *)
Definition post_field_names : list key :=
  map KStr ["shortcode"; "url"; "timestamp"; "likes"; "comments"; "caption";
            "location"; "hashtags"; "mentioned_users"; "is_video"].

Definition location_field_names : list key :=
  map KStr ["name"; "id"; "lat"; "lng"; "post_url"].

(** The sequence [posts] yields the posts [ps] first, and then ends unless
    [ps] already is longer than the limit. *)
Definition starts_with (posts : iterator Post) (ps : list Post) (max_posts : Z)
  : Prop :=
  (forall i p, nth_error ps i = Some p -> posts i = Yield p)
  /\ (posts (List.length ps) = StopIteration \/ max_posts < len ps).

(** The six entries of a bundle. *)
Definition bundle (l locs th tm : list value) (tp : dict) : dict :=
  [(KStr "posts_analyzed", VInt (len l));
   (KStr "posts_data", VList l);
   (KStr "locations", VList locs);
   (KStr "top_hashtags", VList th);
   (KStr "top_mentions", VList tm);
   (KStr "time_patterns", VDict tp)].

(** The handles of a list of connections. *)
Definition handles (l : list connection) : list string := map conn_username l.

(** The entries of a table: string keys, counts of at least 1. *)
Definition table_ok (d : counts) : Prop :=
  NoDup (dict_keys d)
  /\ forall k n, In (k, n) d -> (exists tag, k = KStr tag) /\ 1 <= n.

(** The CSV file of a table: nothing for no record, else the header and one
    row of cells per record. *)
Definition table_file (name : string) (keys : list key) (recs : list dict)
  : file_system :=
  match recs with
  | [] => []
  | _ :: _ => [(name, map key_value keys :: map (cells keys) recs)]
  end.

(** All rows of a file have the same number of cells. *)
Definition rectangular (rows : list row) : Prop :=
  exists w, Forall (fun r => List.length r = w) rows.

(** [q] is the double nearest to [a / b]: a 53-bit mantissa [m] times a
    power [2 ^ e] of two, at most half a unit of the last place away from the
    quotient, with an even mantissa when exactly half a unit away. *)
Definition is_double_of (a b : Z) (q : Q) : Prop :=
  exists m e,
    2 ^ 52 <= m <= 2 ^ 53
    /\ Qeq q (if 0 <=? e then Qmake (m * 2 ^ e) 1
              else Qmake m (Z.to_pos (2 ^ (- e))))
    /\ (if 0 <=? e
        then Z.abs (2 * a - 2 * m * (b * 2 ^ e)) <= b * 2 ^ e
             /\ (Z.abs (2 * a - 2 * m * (b * 2 ^ e)) = b * 2 ^ e ->
                 Z.even m = true)
        else Z.abs (2 * (a * 2 ^ (- e)) - 2 * m * b) <= b
             /\ (Z.abs (2 * (a * 2 ^ (- e)) - 2 * m * b) = b ->
                 Z.even m = true)).

(** The number a finite double of the Standard Library's specification of
    IEEE 754 arithmetic is equal to. *)
Definition double_value (f : SpecFloat.spec_float) : option Q :=
  match f with
  | SpecFloat.S754_zero _ => Some 0%Q
  | SpecFloat.S754_finite s m e =>
      let z := if s then Z.neg m else Z.pos m in
      Some (Qred (if 0 <=? e then Qmake (z * 2 ^ e) 1
                  else Qmake z (Z.to_pos (2 ^ (- e)))))
  | _ => None
  end.

(** The quotient of two positive ints by the Standard Library's IEEE 754
    division with 53 bits of precision. *)
Definition ieee_quotient (a b : positive) : option Q :=
  double_value
    (SpecFloat.SFdiv 53 1024 (SpecFloat.S754_finite false a 0)
                             (SpecFloat.S754_finite false b 0)).

End Notions.

Import Notions.

(** ** Sample inputs *)

Module Samples.

(** Monday 2 November 2026, 10:00 and 14:00; Wednesday 4 November, 09:00. *)
Definition monday_10 : datetime := mk_datetime 2026 11 2 10 0 0 0.
Definition monday_14 : datetime := mk_datetime 2026 11 2 14 0 0 0.
Definition wednesday_9 : datetime := mk_datetime 2026 11 4 9 0 0 0.
Definition week_times : list datetime := [monday_10; monday_14; wednesday_9].

(** Two instants ten days apart, the older one first. *)
Definition nov_1 : datetime := mk_datetime 2026 11 1 0 0 0 0.
Definition nov_11 : datetime := mk_datetime 2026 11 11 0 0 0 0.
Definition oldest_first : list datetime := [nov_1; nov_11].
Definition newest_first : list datetime := [nov_11; nov_1].

Definition sample_post (code : string) (t : datetime) (tags : list string) : Post :=
  {| shortcode := code; date_utc := t; likes := 1; comments := 0;
     caption := None; location := None; caption_hashtags := tags;
     caption_mentions := []; is_video := false |}.

Definition post_a : Post := sample_post "a" monday_10 ["cat"; "dog"].
Definition post_b : Post := sample_post "b" monday_14 ["cat"].
Definition post_c : Post := sample_post "c" wednesday_9 [].

Definition timed_out : exn := ConnectionException "timed out".

(** A network on which GitHub knows the target, Reddit times out and every
    other platform answers 404. *)
Definition sample_net : http_get :=
  fun url =>
    if String.prefix "https://github.com/" url then Ok 200
    else if String.prefix "https://www.reddit.com/" url then Raise timed_out
    else Ok 404.

Definition ann : connection :=
  {| conn_username := "ann"; conn_full_name := "Ann"; conn_is_verified := false |}.
Definition bob : connection :=
  {| conn_username := "bob"; conn_full_name := "Bob"; conn_is_verified := true |}.
Definition cy : connection :=
  {| conn_username := "cy"; conn_full_name := "Cy"; conn_is_verified := false |}.

Definition no_nodes : node_sequence := {| nodes := []; failure := None |}.
Definition failing_nodes : node_sequence :=
  {| nodes := []; failure := Some timed_out |}.

(** Records for a CSV table: the second one has a field more, respectively
    a field less, than the first. *)
Definition rec_a1 : dict := [(KStr "a", VInt 1)].
Definition rec_a2_b3 : dict := [(KStr "a", VInt 2); (KStr "b", VInt 3)].
Definition rec_a1_b2 : dict := [(KStr "a", VInt 1); (KStr "b", VInt 2)].
Definition rec_b3 : dict := [(KStr "b", VInt 3)].

Definition eiffel : PostLocation :=
  {| loc_name := "Tour Eiffel"; loc_id := 7; loc_lat := None; loc_lng := None |}.

(** A post carrying a location. *)
Definition post_d : Post :=
  {| shortcode := "d"; date_utc := wednesday_9; likes := 3; comments := 1;
     caption := Some "#cat @bob"; location := Some eiffel;
     caption_hashtags := ["cat"]; caption_mentions := ["bob"];
     is_video := true |}.

Definition alice_profile : Profile.t :=
  {| Profile.username := "alice"; Profile.userid := 42;
     Profile.full_name := "Alice"; Profile.biography := "";
     Profile.external_url := None; Profile.followers := 2;
     Profile.followees := 2; Profile.is_private := true;
     Profile.is_verified := false; Profile.mediacount := 4;
     Profile.igtvcount := 0; Profile.profile_pic_url := "https://example.org/a.jpg" |}.

(** A private profile seen by a caller who is logged in. *)
Definition private_alice : provider :=
  {| from_username := Ok alice_profile;
     get_posts := iter_of [post_a; post_d] StopIteration;
     get_followers := no_nodes;
     get_followees := no_nodes;
     is_logged_in := true |}.

Definition ann_node : Profile_node :=
  {| username := "ann"; full_name := "Ann"; is_verified := false |}.
Definition bob_node : Profile_node :=
  {| username := "bob"; full_name := "Bob"; is_verified := true |}.

(** Ann and Bob follow the target; the target follows Bob only. *)
Definition two_followers : node_sequence :=
  {| nodes := [ann_node; bob_node]; failure := None |}.
Definition one_followee : node_sequence :=
  {| nodes := [bob_node]; failure := None |}.

(** A public profile seen by a caller who is logged in. *)
Definition public_profile : Profile.t :=
  {| Profile.username := "carol"; Profile.userid := 43;
     Profile.full_name := "Carol"; Profile.biography := "";
     Profile.external_url := Some "https://example.org"; Profile.followers := 2;
     Profile.followees := 1; Profile.is_private := false;
     Profile.is_verified := false; Profile.mediacount := 2;
     Profile.igtvcount := 0; Profile.profile_pic_url := "https://example.org/c.jpg" |}.

Definition public_carol : provider :=
  {| from_username := Ok public_profile;
     get_posts := iter_of [post_a; post_d] StopIteration;
     get_followers := two_followers;
     get_followees := one_followee;
     is_logged_in := true |}.

(** A handle the provider does not know. *)
Definition nobody : provider :=
  {| from_username := Raise (ValueError "profile does not exist");
     get_posts := iter_of [post_a] StopIteration;
     get_followers := two_followers;
     get_followees := one_followee;
     is_logged_in := true |}.

End Samples.

Import Samples.

(** ** Dictionaries *)

Lemma key_eqb_eq (a b : key) : key_eqb a b = true <-> a = b.
Proof.
  destruct a as [s|n], b as [t|m]; simpl; split; intro H;
    try discriminate; try congruence.
  - apply String.eqb_eq in H. now subst.
  - inversion H. apply String.eqb_refl.
  - apply Z.eqb_eq in H. now subst.
  - inversion H. apply Z.eqb_refl.
Qed.

Lemma key_eqb_refl (a : key) : key_eqb a a = true.
Proof. now apply key_eqb_eq. Qed.

Lemma key_eqb_neq (a b : key) : key_eqb a b = false <-> a <> b.
Proof.
  split.
  - intros H E. apply key_eqb_eq in E. congruence.
  - intro H. destruct (key_eqb a b) eqn:E; [|reflexivity].
    apply key_eqb_eq in E. contradiction.
Qed.

Lemma existsb_key_In (k : key) (l : list key) :
  existsb (key_eqb k) l = true <-> In k l.
Proof.
  rewrite existsb_exists. split.
  - intros [x [Hx E]]. apply key_eqb_eq in E. now subst.
  - intro H. exists k. split; [assumption | apply key_eqb_refl].
Qed.

Lemma hist_ext (keys : list key) (f g : key -> Z) :
  (forall k, In k keys -> f k = g k) -> hist keys f = hist keys g.
Proof.
  intro H. unfold hist. apply map_ext_in. intros k Hk. now rewrite H.
Qed.

Lemma dict_get_hist (keys : list key) (f : key -> Z) (k : key) :
  In k keys -> dict_get (hist keys f) k = Some (f k).
Proof.
  induction keys as [|k' keys IH]; simpl; [contradiction|].
  intros [E|H].
  - subst. now rewrite key_eqb_refl.
  - destruct (key_eqb k' k) eqn:E.
    + apply key_eqb_eq in E. now subst.
    + auto.
Qed.

Lemma dict_set_hist (keys : list key) (f : key -> Z) (k : key) (v : Z) :
  NoDup keys ->
  dict_set (hist keys f) k v
  = hist keys (fun k' => if key_eqb k' k then v else f k')
    ++ (if existsb (key_eqb k) keys then [] else [(k, v)]).
Proof.
  intro ND. induction ND as [|k' keys Hn ND IH]; simpl; [reflexivity|].
  destruct (key_eqb k' k) eqn:E.
  - apply key_eqb_eq in E. subst k'. rewrite key_eqb_refl. simpl.
    rewrite app_nil_r. f_equal. apply hist_ext. intros x Hx.
    destruct (key_eqb x k) eqn:E'; [|reflexivity].
    apply key_eqb_eq in E'. subst. contradiction.
  - assert (key_eqb k k' = false) as ->.
    { apply key_eqb_neq. apply key_eqb_neq in E. congruence. }
    simpl. now rewrite IH.
Qed.

(** Incrementing a bucket of a histogram leaves the buckets in place. *)
Lemma dict_incr_hist (keys : list key) (f : key -> Z) (k : key) :
  NoDup keys -> In k keys ->
  dict_incr (hist keys f) k
  = Ok (hist keys (fun k' => f k' + (if key_eqb k k' then 1 else 0))).
Proof.
  intros ND Hk. unfold dict_incr. rewrite dict_get_hist by assumption.
  rewrite dict_set_hist by assumption.
  apply existsb_key_In in Hk. rewrite Hk, app_nil_r. apply f_equal.
  apply hist_ext. intros x _.
  destruct (key_eqb x k) eqn:E.
  - apply key_eqb_eq in E. subst. now rewrite key_eqb_refl.
  - assert (key_eqb k x = false) as ->; [|lia].
    apply key_eqb_neq. apply key_eqb_neq in E. congruence.
Qed.

(** ** [max]: the first of the largest *)

Lemma max_from_first {K} (l pre mid : list (K * Z)) (best : K * Z) :
  (forall x, In x pre -> snd x < snd best) ->
  (forall x, In x mid -> snd x <= snd best) ->
  exists pre' post',
    pre ++ best :: mid ++ l = pre' ++ max_from best l :: post' /\
    (forall x, In x pre' -> snd x < snd (max_from best l)) /\
    (forall x, In x post' -> snd x <= snd (max_from best l)).
Proof.
  revert pre mid best. induction l as [|x l IH]; intros pre mid best Hpre Hmid.
  - exists pre, mid. rewrite app_nil_r. simpl. auto.
  - simpl. destruct (snd best <? snd x) eqn:E.
    + apply Z.ltb_lt in E.
      destruct (IH (pre ++ best :: mid) [] x) as (pre' & post' & Heq & H1 & H2).
      * intros y Hy. apply in_app_or in Hy. destruct Hy as [Hy|[Hy|Hy]].
        -- specialize (Hpre y Hy). lia.
        -- now subst.
        -- specialize (Hmid y Hy). lia.
      * intros y [].
      * exists pre', post'. split; [|auto].
        rewrite <- Heq. simpl. now rewrite <- app_assoc.
    + apply Z.ltb_ge in E.
      destruct (IH pre (mid ++ [x]) best) as (pre' & post' & Heq & H1 & H2).
      * assumption.
      * intros y Hy. apply in_app_or in Hy. destruct Hy as [Hy|[Hy|[]]].
        -- auto.
        -- now subst.
      * exists pre', post'. split; [|auto].
        rewrite <- Heq. now rewrite <- app_assoc.
Qed.

Lemma max_by_count_first (l : counts) :
  l <> [] ->
  exists k n, max_by_count l = Ok (k, n) /\ first_max k l.
Proof.
  destruct l as [|x l]; [congruence|]. intros _.
  destruct (max_from_first l [] [] x) as (pre & post & Heq & H1 & H2).
  - intros y [].
  - intros y [].
  - simpl in Heq. destruct (max_from x l) as [k n] eqn:E.
    exists k, n. split.
    + simpl. now rewrite E.
    + exists pre, n, post. auto.
Qed.

(** ** The histograms of [analyze_posting_patterns] *)

Lemma NoDup_day_keys : NoDup day_keys.
Proof.
  unfold day_keys, days_of_week. simpl.
  repeat (constructor; [simpl; intuition discriminate|]). constructor.
Qed.

Lemma NoDup_hour_keys : NoDup hour_keys.
Proof.
  unfold hour_keys, range. apply Finite.Injective_map_NoDup.
  - intros a b E. now inversion E.
  - apply Finite.Injective_map_NoDup; [|apply seq_NoDup].
    intros a b E. now apply Nat2Z.inj.
Qed.

Lemma weekday_range (t : datetime) : 0 <= weekday t < 7.
Proof. unfold weekday. apply Z.mod_pos_bound. lia. Qed.

Lemma list_index_day (t : datetime) :
  list_index days_of_week (weekday t) = Ok (day_name t)
  /\ In (KStr (day_name t)) day_keys.
Proof.
  pose proof (weekday_range t) as H. unfold list_index, day_name.
  assert ((weekday t <? 0) = false) as -> by (apply Z.ltb_ge; lia).
  assert (Z.to_nat (weekday t) < 7)%nat as Hn by lia.
  destruct (Z.to_nat (weekday t)) as [|[|[|[|[|[|[|n]]]]]]]; simpl;
    try (split; [reflexivity | tauto]).
  lia.
Qed.

Lemma hour_key_In (t : datetime) :
  valid t = true -> In (KInt (hour t)) hour_keys.
Proof.
  unfold valid. rewrite !andb_true_iff.
  intros [[[[[[[[[[[[[_ _] _] _] _] _] H0] H1] _] _] _] _] _] _].
  apply Z.leb_le in H0. apply Z.ltb_lt in H1.
  unfold hour_keys, range. apply in_map. apply in_map_iff.
  exists (Z.to_nat (hour t)). split; [lia|]. apply in_seq. lia.
Qed.

Lemma count_where_cons (p : datetime -> bool) (t : datetime) (ts : list datetime) :
  count_where p (t :: ts) = (if p t then 1 else 0) + count_where p ts.
Proof.
  unfold count_where, len. cbn [filter]. destruct (p t); cbn [List.length]; lia.
Qed.

(** The loop adds to each bucket the number of timestamps falling in it. *)
Lemma tally_hist (ts : list datetime) (f g : key -> Z) :
  Forall (fun t => valid t = true) ts ->
  tally ts (hist day_keys f) (hist hour_keys g)
  = Ok (hist day_keys
          (fun k => f k + count_where (fun t => key_eqb (KStr (day_name t)) k) ts),
        hist hour_keys
          (fun k => g k + count_where (fun t => key_eqb (KInt (hour t)) k) ts)).
Proof.
  intro Hv. revert f g. induction Hv as [|t ts Ht Hts IH]; intros f g.
  - cbn [tally]. f_equal. f_equal; apply hist_ext; intros k _;
      unfold count_where, len; cbn [filter List.length]; lia.
  - cbn [tally]. destruct (list_index_day t) as [-> Hd]. cbn [bind].
    rewrite dict_incr_hist by (apply NoDup_day_keys || assumption). cbn [bind].
    rewrite dict_incr_hist by (apply NoDup_hour_keys || now apply hour_key_In).
    cbn [bind]. rewrite IH. f_equal. f_equal; apply hist_ext; intros k _;
      rewrite count_where_cons; lia.
Qed.

Lemma tally_histograms (ts : list datetime) :
  Forall (fun t => valid t = true) ts ->
  tally ts (map (fun d => (KStr d, 0)) days_of_week)
           (map (fun h => (KInt h, 0)) (range 24))
  = Ok (day_histogram ts, hour_histogram ts).
Proof.
  intro Hv.
  change (map (fun d => (KStr d, 0)) days_of_week) with (hist day_keys (fun _ => 0)).
  change (map (fun h => (KInt h, 0)) (range 24)) with (hist hour_keys (fun _ => 0)).
  rewrite tally_hist by assumption. reflexivity.
Qed.

(** ** The average frequency *)

Lemma round_half_even_spec (num den : Z) :
  0 <= num -> 0 < den ->
  let m := round_half_even num den in
  (m = num / den \/ (m = num / den + 1 /\ 0 < num mod den))
  /\ Z.abs (2 * num - 2 * m * den) <= den
  /\ (Z.abs (2 * num - 2 * m * den) = den -> Z.even m = true).
Proof.
  intros Hn Hd. cbv zeta. unfold round_half_even.
  pose proof (Z.div_mod num den ltac:(lia)) as E.
  pose proof (Z.mod_pos_bound num den Hd) as Hr.
  set (q := num / den) in *. set (r := num mod den) in *.
  destruct ((den <? 2 * r) || ((den =? 2 * r) && Z.odd q)) eqn:C.
  - apply orb_true_iff in C.
    assert (den <= 2 * r) as H2.
    { destruct C as [C|C]; [apply Z.ltb_lt in C; lia|].
      apply andb_true_iff in C. destruct C as [C _]. apply Z.eqb_eq in C. lia. }
    split; [right; split; [reflexivity | lia]|]. split; [lia|].
    intro Ht. assert (den = 2 * r) as Hden by lia.
    destruct C as [C|C]; [apply Z.ltb_lt in C; lia|].
    apply andb_true_iff in C. destruct C as [_ C].
    rewrite Z.even_add. rewrite <- Z.negb_odd, C. reflexivity.
  - apply orb_false_iff in C. destruct C as [C1 C2]. apply Z.ltb_ge in C1.
    split; [now left|]. split; [lia|].
    intro Ht. assert (den = 2 * r) as Hden by lia.
    apply andb_false_iff in C2. destruct C2 as [C2|C2].
    + apply Z.eqb_neq in C2. lia.
    + rewrite <- Z.negb_odd, C2. reflexivity.
Qed.

Lemma pow2_pos (k : Z) : 0 <= k -> 0 < 2 ^ k.
Proof. intro H. apply Z.pow_pos_nonneg; lia. Qed.

(** The scaled quotient at the first exponent has 53 or 54 bits. *)
Lemma scaled_first (n d : Z) :
  1 <= n -> 1 <= d ->
  let e0 := Z.log2 n - Z.log2 d - 53 in
  0 < snd (scaled n d e0)
  /\ 2 ^ 52 * snd (scaled n d e0) <= fst (scaled n d e0)
  /\ fst (scaled n d e0) < 2 ^ 54 * snd (scaled n d e0).
Proof.
  intros Hn Hd. cbv zeta.
  destruct (Z.log2_spec n ltac:(lia)) as [Ln Un].
  destruct (Z.log2_spec d ltac:(lia)) as [Ld Ud].
  pose proof (Z.log2_nonneg n) as L0. pose proof (Z.log2_nonneg d) as M0.
  set (L := Z.log2 n) in *. set (M := Z.log2 d) in *.
  rewrite <- Z.add_1_r in Un, Ud.
  unfold scaled. destruct (0 <=? L - M - 53) eqn:E; cbn [fst snd].
  - apply Z.leb_le in E. set (e := L - M - 53) in *.
    pose proof (pow2_pos e E) as Pe. pose proof (pow2_pos M M0) as PM.
    assert (2 ^ L = 2 ^ M * 2 ^ 53 * 2 ^ e) as HL.
    { rewrite <- !Z.pow_add_r by lia. f_equal. unfold e. lia. }
    assert (2 ^ (M + 1) = 2 ^ M * 2) as HM1 by (rewrite Z.pow_add_r by lia; reflexivity).
    assert (2 ^ (L + 1) = 2 ^ L * 2) as HL1 by (rewrite Z.pow_add_r by lia; reflexivity).
    change (2 ^ 52) with 4503599627370496. change (2 ^ 54) with 18014398509481984.
    change (2 ^ 53) with 9007199254740992 in HL.
    split; [nia|]. split; nia.
  - apply Z.leb_gt in E. set (k := - (L - M - 53)) in *.
    assert (0 <= k) as Hk by (unfold k; lia).
    pose proof (pow2_pos k Hk) as Pk. pose proof (pow2_pos M M0) as PM.
    pose proof (pow2_pos L L0) as PL.
    assert (2 ^ L * 2 ^ k = 2 ^ M * 2 ^ 53) as HL.
    { rewrite <- !Z.pow_add_r by lia. f_equal. unfold k. lia. }
    assert (2 ^ (M + 1) = 2 ^ M * 2) as HM1 by (rewrite Z.pow_add_r by lia; reflexivity).
    assert (2 ^ (L + 1) = 2 ^ L * 2) as HL1 by (rewrite Z.pow_add_r by lia; reflexivity).
    change (2 ^ 52) with 4503599627370496. change (2 ^ 54) with 18014398509481984.
    change (2 ^ 53) with 9007199254740992 in HL.
    split; [lia|]. split; nia.
Qed.

Lemma scaled_pos (n d e : Z) :
  1 <= n -> 1 <= d -> 0 < fst (scaled n d e) /\ 0 < snd (scaled n d e).
Proof.
  intros Hn Hd. unfold scaled. destruct (0 <=? e) eqn:E; cbn [fst snd].
  - apply Z.leb_le in E. pose proof (pow2_pos e E). nia.
  - apply Z.leb_gt in E. pose proof (pow2_pos (- e) ltac:(lia)). nia.
Qed.

(** One exponent up halves the scaled quotient. *)
Lemma scaled_succ (n d e : Z) :
  fst (scaled n d e) * snd (scaled n d (e + 1))
  = 2 * fst (scaled n d (e + 1)) * snd (scaled n d e).
Proof.
  unfold scaled. destruct (0 <=? e) eqn:E.
  - apply Z.leb_le in E.
    assert ((0 <=? e + 1) = true) as -> by (apply Z.leb_le; lia).
    cbn [fst snd]. rewrite Z.pow_add_r by lia. change (2 ^ 1) with 2. ring.
  - apply Z.leb_gt in E. destruct (0 <=? e + 1) eqn:E1; cbn [fst snd].
    + apply Z.leb_le in E1. assert (e = -1) as -> by lia.
      change (-1 + 1) with 0. change (- -1) with 1.
      change (2 ^ 1) with 2. change (2 ^ 0) with 1. ring.
    + apply Z.leb_gt in E1.
      replace (- e) with (- (e + 1) + 1) by lia.
      rewrite Z.pow_add_r by lia. change (2 ^ 1) with 2. ring.
Qed.

(** The scaled quotient at the exponent chosen has exactly 53 bits. *)
Lemma scaled_final (n d : Z) :
  1 <= n -> 1 <= d ->
  let e := snd (round_mantissa n d) in
  0 < snd (scaled n d e)
  /\ 2 ^ 52 * snd (scaled n d e) <= fst (scaled n d e)
  /\ fst (scaled n d e) < 2 ^ 53 * snd (scaled n d e).
Proof.
  intros Hn Hd. cbv zeta. unfold round_mantissa. cbn [snd].
  destruct (scaled_first n d Hn Hd) as (D0 & Lo & Hi).
  set (e0 := Z.log2 n - Z.log2 d - 53) in *.
  destruct (2 ^ 53 <=? fst (scaled n d e0) / snd (scaled n d e0)) eqn:C.
  - apply Z.leb_le in C.
    pose proof (Z.mul_div_le (fst (scaled n d e0)) (snd (scaled n d e0)) D0) as Hq.
    pose proof (scaled_succ n d e0) as Hs.
    destruct (scaled_pos n d (e0 + 1) Hn Hd) as [N1 D1].
    change (2 ^ 52) with 4503599627370496 in *.
    change (2 ^ 53) with 9007199254740992 in *.
    change (2 ^ 54) with 18014398509481984 in *.
    split; [assumption|]. split; nia.
  - apply Z.leb_gt in C.
    assert (fst (scaled n d e0) < 2 ^ 53 * snd (scaled n d e0)) as H.
    { pose proof (Z.div_mod (fst (scaled n d e0)) (snd (scaled n d e0))
                    ltac:(lia)) as Edm.
      pose proof (Z.mod_pos_bound (fst (scaled n d e0)) (snd (scaled n d e0)) D0)
        as Hr.
      change (2 ^ 53) with 9007199254740992 in *. nia. }
    auto.
Qed.

Lemma round_mantissa_range (n d : Z) :
  1 <= n -> 1 <= d ->
  2 ^ 52 <= fst (round_mantissa n d) <= 2 ^ 53.
Proof.
  intros Hn Hd. destruct (scaled_final n d Hn Hd) as (D & Lo & Hi).
  unfold round_mantissa in *. cbn [fst snd] in *.
  set (e := if 2 ^ 53 <=? _ then _ else _) in *.
  destruct (scaled_pos n d e Hn Hd) as [N _].
  destruct (round_half_even_spec (fst (scaled n d e)) (snd (scaled n d e))
              ltac:(lia) D) as [Hm _].
  assert (2 ^ 52 <= fst (scaled n d e) / snd (scaled n d e)) as Hq1
    by (apply Z.div_le_lower_bound; lia).
  assert (fst (scaled n d e) / snd (scaled n d e) < 2 ^ 53) as Hq2
    by (apply Z.div_lt_upper_bound; lia).
  destruct Hm as [->|[-> _]]; lia.
Qed.

(** The float quotient of two positive ints is the double nearest to their
    quotient. *)
Lemma float_quotient_is_double (a b : Z) :
  1 <= a -> 1 <= b -> is_double_of a b (float_quotient a b).
Proof.
  intros Ha Hb. unfold float_quotient.
  assert ((a =? 0) = false) as -> by (apply Z.eqb_neq; lia).
  rewrite Z.abs_eq, Z.abs_eq, Z.sgn_pos, Z.sgn_pos by lia.
  rewrite Z.mul_1_l.
  exists (fst (round_mantissa a b)), (snd (round_mantissa a b)).
  split; [now apply round_mantissa_range|]. split; [apply Qred_correct|].
  destruct (scaled_final a b Ha Hb) as (D & _).
  unfold round_mantissa in *. cbn [fst snd] in *.
  set (e := if 2 ^ 53 <=? _ then _ else _) in *.
  destruct (scaled_pos a b e Ha Hb) as [N _].
  destruct (round_half_even_spec (fst (scaled a b e)) (snd (scaled a b e))
              ltac:(lia) D) as (_ & Hnear & Htie).
  unfold scaled in *. destruct (0 <=? e); cbn [fst snd] in *; split; assumption.
Qed.

(** Below [2 ^ 53] the float quotient by a positive int is positive and not
    above the dividend. *)
Lemma float_quotient_bounds (a b : Z) :
  1 <= a < 2 ^ 53 -> 1 <= b ->
  Qlt 0 (float_quotient a b) /\ Qle (float_quotient a b) (inject_Z a).
Proof.
  intros Ha Hb. unfold float_quotient.
  assert ((a =? 0) = false) as -> by (apply Z.eqb_neq; lia).
  rewrite Z.abs_eq, Z.abs_eq, Z.sgn_pos, Z.sgn_pos by lia.
  rewrite Z.mul_1_l. rewrite Qred_correct.
  pose proof (round_mantissa_range a b ltac:(lia) Hb) as [Rlo Rhi].
  destruct (scaled_final a b ltac:(lia) Hb) as (D & Lo & Hi).
  unfold round_mantissa in *. cbn [fst snd] in *.
  set (e := if 2 ^ 53 <=? _ then _ else _) in *.
  destruct (scaled_pos a b e ltac:(lia) Hb) as [N _].
  destruct (round_half_even_spec (fst (scaled a b e)) (snd (scaled a b e))
              ltac:(lia) D) as [Hm _].
  set (m := round_half_even _ _) in *.
  pose proof (Z.div_mod (fst (scaled a b e)) (snd (scaled a b e)) ltac:(lia)) as Edm.
  pose proof (Z.mod_pos_bound (fst (scaled a b e)) (snd (scaled a b e)) D) as Hr.
  assert (m * snd (scaled a b e) <= fst (scaled a b e) * snd (scaled a b e)
          /\ (0 <=? e) = (e =? 0)) as [Hle He].
  { change (2 ^ 52) with 4503599627370496 in *.
    change (2 ^ 53) with 9007199254740992 in *.
    unfold scaled in *. destruct (0 <=? e) eqn:E; cbn [fst snd] in *.
    - apply Z.leb_le in E. pose proof (pow2_pos e E) as Pe.
      assert (e = 0) as He.
      { destruct (Z.eq_dec e 0) as [|Hne]; [assumption|].
        assert (2 <= 2 ^ e).
        { change 2 with (2 ^ 1) at 1. apply Z.pow_le_mono_r; lia. }
        nia. }
      rewrite He in *. change (2 ^ 0) with 1 in *. split; [|reflexivity].
      destruct Hm as [Hm|[Hm Hpos]]; nia.
    - apply Z.leb_gt in E. split; [|symmetry; apply Z.eqb_neq; lia].
      destruct Hm as [Hm|[Hm Hpos]]; nia. }
  unfold Qlt, Qle, inject_Z. rewrite He.
  destruct (e =? 0) eqn:E0; cbn [Qnum Qden].
  - apply Z.eqb_eq in E0. rewrite E0 in *. change (2 ^ 0) with 1 in *.
    unfold scaled in Hle. cbn in Hle. split; [lia | nia].
  - apply Z.eqb_neq in E0.
    assert (e < 0) as Hneg.
    { destruct (0 <=? e) eqn:E; [|apply Z.leb_gt in E; lia]. discriminate. }
    pose proof (pow2_pos (- e) ltac:(lia)) as Pk.
    rewrite Z2Pos.id by assumption.
    unfold scaled in Hle.
    assert ((0 <=? e) = false) as Hb' by (apply Z.leb_gt; lia).
    rewrite Hb' in Hle. cbn [fst snd] in Hle. split; [lia | nia].
Qed.

Lemma truediv_pos (a b : Z) :
  0 < b -> truediv a b = Ok (float_quotient a b).
Proof.
  intro H. unfold truediv.
  assert ((b =? 0) = false) as -> by (apply Z.eqb_neq; lia). reflexivity.
Qed.

Lemma list_last_cons {A} (x d : A) (l : list A) :
  list_last (x :: l) = Ok (last (x :: l) d).
Proof.
  revert x. induction l as [|y l IH]; intro x; [reflexivity|].
  change (list_last (x :: y :: l)) with (list_last (y :: l)).
  now rewrite IH.
Qed.

(** The divisor is the signed number of whole days from the last timestamp
    of the input to the first one, or 1 if that is larger. *)
Lemma post_frequency_days_many (first : datetime) (rest : list datetime) :
  rest <> [] ->
  post_frequency_days (first :: rest)
  = Ok (VFloat (float_quotient
                  (len (first :: rest))
                  (Z.max (days (sub first (last (first :: rest) first))) 1))).
Proof.
  intro Hne. unfold post_frequency_days.
  assert ((1 <? len (first :: rest)) = true) as ->.
  { apply Z.ltb_lt. destruct rest; [congruence|]. unfold len. cbn [List.length]. lia. }
  rewrite (list_last_cons first first). cbn [list_index Z.ltb Z.compare Z.to_nat nth_error bind].
  rewrite truediv_pos by lia. reflexivity.
Qed.

Lemma post_frequency_days_one (t : datetime) :
  post_frequency_days [t] = Ok (VInt 0).
Proof. reflexivity. Qed.

Lemma post_frequency_days_ok (ts : list datetime) :
  exists v, post_frequency_days ts = Ok v.
Proof.
  destruct ts as [|t [|u rest]].
  - now exists (VInt 0).
  - now exists (VInt 0).
  - eexists. apply post_frequency_days_many. discriminate.
Qed.

(** The [days] of a difference is the floor of the elapsed time in days. *)
Lemma sub_days (a b : datetime) :
  days (sub a b) = (total_us a - total_us b) / US_PER_DAY.
Proof.
  unfold sub, new_timedelta, total_us, US_PER_DAY. cbn [days].
  set (da := toordinal a). set (db := toordinal b).
  set (sa := second a + minute a * 60 + hour a * 3600).
  set (sb := second b + minute b * 60 + hour b * 3600).
  replace ((da * 86400 + sa) * 1000000 + microsecond a
           - ((db * 86400 + sb) * 1000000 + microsecond b))
    with (microsecond a - microsecond b + ((da - db) * 86400 + (sa - sb)) * 1000000)
    by ring.
  change 86400000000 with (1000000 * 86400).
  rewrite <- Z.div_div by lia.
  rewrite Z.div_add by lia.
  replace ((microsecond a - microsecond b) / 1000000 + ((da - db) * 86400 + (sa - sb)))
    with (sa - sb + (microsecond a - microsecond b) / 1000000 + (da - db) * 86400)
    by ring.
  rewrite Z.div_add by lia. ring.
Qed.

(** ** The summary of a non-empty sequence *)

Lemma first_max_key (k : key) (keys : list key) (f : key -> Z) :
  first_max k (hist keys f) -> In k keys.
Proof.
  intros (pre & n & post & Heq & _).
  assert (In (k, n) (hist keys f)) as H.
  { rewrite Heq. apply in_or_app. right. now left. }
  unfold hist in H. apply in_map_iff in H. destruct H as (k' & E & Hk).
  now inversion E; subst.
Qed.

Lemma analyze_posting_patterns_ok (ts : list datetime) :
  ts <> [] ->
  Forall (fun t => valid t = true) ts ->
  exists d h freq,
    analyze_posting_patterns ts
    = Ok [(KStr "most_active_day", VStr d);
          (KStr "day_activity", VDict (count_dict (day_histogram ts)));
          (KStr "most_active_hour", VInt h);
          (KStr "hour_activity", VDict (count_dict (hour_histogram ts)));
          (KStr "post_frequency_days", freq)]
    /\ first_max (KStr d) (day_histogram ts)
    /\ first_max (KInt h) (hour_histogram ts)
    /\ post_frequency_days ts = Ok freq.
Proof.
  intros Hne Hv. destruct ts as [|t ts]; [congruence|].
  unfold analyze_posting_patterns. rewrite tally_histograms by assumption.
  cbn [bind fst snd].
  destruct (max_by_count_first (day_histogram (t :: ts))) as (kd & nd & Ed & Hd);
    [discriminate|].
  destruct (max_by_count_first (hour_histogram (t :: ts))) as (kh & nh & Eh & Hh);
    [discriminate|].
  destruct (post_frequency_days_ok (t :: ts)) as [freq Ef].
  rewrite Ed, Eh, Ef. cbn [bind fst].
  pose proof (first_max_key _ _ _ Hd) as Kd.
  pose proof (first_max_key _ _ _ Hh) as Kh.
  apply in_map_iff in Kd. destruct Kd as (d & <- & _).
  apply in_map_iff in Kh. destruct Kh as (h & <- & _).
  exists d, h, freq. auto.
Qed.

(** ** The loop over the posts *)

Lemma analyze_posting_patterns_total (ts : list datetime) :
  Forall (fun t => valid t = true) ts ->
  exists r, analyze_posting_patterns ts = Ok r.
Proof.
  intro Hv. destruct ts as [|t ts].
  - now exists [].
  - destruct (analyze_posting_patterns_ok (t :: ts)) as (d & h & f & E & _);
      [discriminate | assumption |].
    eexists. exact E.
Qed.

Lemma process_posts_data (ps : list Post) (st : acc) :
  posts_data (fold_left process_post ps st) = posts_data st ++ map post_data ps.
Proof.
  revert st. induction ps as [|p ps IH]; intro st; simpl.
  - now rewrite app_nil_r.
  - rewrite IH. simpl. now rewrite <- app_assoc.
Qed.

Lemma process_post_times (ps : list Post) (st : acc) :
  post_times (fold_left process_post ps st) = post_times st ++ map date_utc ps.
Proof.
  revert st. induction ps as [|p ps IH]; intro st; simpl.
  - now rewrite app_nil_r.
  - rewrite IH. simpl. now rewrite <- app_assoc.
Qed.

(** With well-formed dates the statements after the loop do not raise. *)
Lemma bundle_of_posts (ps : list Post) :
  Forall (fun p => valid (date_utc p) = true) ps ->
  exists rest,
    bundle_of ps
    = (KStr "posts_analyzed", VInt (len ps))
        :: (KStr "posts_data", VList (map post_data ps)) :: rest.
Proof.
  intro Hv. unfold bundle_of, analysis_results.
  rewrite process_post_times, process_posts_data. cbn [post_times posts_data empty_acc app].
  destruct (analyze_posting_patterns_total (map date_utc ps)) as [r ->].
  { apply Forall_map. exact Hv. }
  cbn [bind try_except]. unfold len. rewrite length_map. eexists. reflexivity.
Qed.

(** While the sequence yields and the limit is not reached, the loop
    processes the posts one after the other. *)
Lemma posts_loop_yields (ps : list Post) :
  forall (fuel : nat) (posts : iterator Post) (max_posts : Z) (i : nat) (st : acc),
  (forall j p, nth_error ps j = Some p -> posts (i + j)%nat = Yield p) ->
  Z.of_nat (i + List.length ps) <= max_posts ->
  posts_loop (List.length ps + fuel) posts max_posts i st
  = posts_loop fuel posts max_posts (i + List.length ps) (fold_left process_post ps st).
Proof.
  induction ps as [|p ps IH]; intros fuel posts max_posts i st Hy Hm.
  - simpl. now rewrite Nat.add_0_r.
  - cbn [List.length Nat.add posts_loop].
    pose proof (Hy 0%nat p eq_refl) as Hp. rewrite Nat.add_0_r in Hp. rewrite Hp.
    assert ((Z.of_nat i >=? max_posts) = false) as ->.
    { rewrite Z.geb_leb. apply Z.leb_gt. cbn [List.length] in Hm. lia. }
    rewrite IH.
    + cbn [fold_left List.length]. f_equal. lia.
    + intros j q Hq. replace (S i + j)%nat with (i + S j)%nat by lia.
      now apply Hy.
    + cbn [List.length] in Hm. lia.
Qed.

(** An exception met before the loop breaks ends the loop. *)
Lemma posts_loop_raises (k : nat) :
  forall (fuel : nat) (posts : iterator Post) (max_posts : Z) (i : nat) (st : acc)
         (e : exn),
  (forall j, (j < k)%nat -> exists p, posts (i + j)%nat = Yield p) ->
  posts (i + k)%nat = Raises e ->
  Z.of_nat (i + k) <= max_posts ->
  (k < fuel)%nat ->
  posts_loop fuel posts max_posts i st = Failed e (i + k).
Proof.
  induction k as [|k IH]; intros fuel posts max_posts i st e Hy Hr Hm Hf.
  - destruct fuel as [|fuel]; [lia|]. rewrite Nat.add_0_r in *.
    cbn [posts_loop]. now rewrite Hr.
  - destruct fuel as [|fuel]; [lia|]. cbn [posts_loop].
    destruct (Hy 0%nat) as [p Hp]; [lia|]. rewrite Nat.add_0_r in Hp. rewrite Hp.
    assert ((Z.of_nat i >=? max_posts) = false) as ->.
    { rewrite Z.geb_leb. apply Z.leb_gt. lia. }
    replace (i + S k)%nat with (S i + k)%nat in * by lia.
    apply IH; try assumption; try lia.
    intros j Hj. replace (S i + j)%nat with (i + S j)%nat by lia.
    apply Hy. lia.
Qed.

(** The loop ends within [max_posts + 1] iterations. *)
Lemma posts_loop_ends (fuel : nat) :
  forall (posts : iterator Post) (max_posts : Z) (i : nat) (st : acc),
  (Z.to_nat max_posts - i < fuel)%nat ->
  posts_loop fuel posts max_posts i st <> OutOfFuel.
Proof.
  induction fuel as [|fuel IH]; intros posts max_posts i st Hf; [lia|].
  cbn [posts_loop]. destruct (posts i); try discriminate.
  destruct (Z.of_nat i >=? max_posts) eqn:E; [discriminate|].
  rewrite Z.geb_leb in E. apply Z.leb_gt in E. apply IH. lia.
Qed.

Lemma analyze_posts_returns (fuel : nat) (posts : iterator Post) (max_posts : Z) :
  (Z.to_nat max_posts < fuel)%nat ->
  exists d, analyze_posts fuel posts max_posts = Some d.
Proof.
  intro Hf. unfold analyze_posts.
  pose proof (posts_loop_ends fuel posts max_posts 0 empty_acc) as H.
  destruct (posts_loop fuel posts max_posts 0 empty_acc).
  - eexists. reflexivity.
  - eexists. reflexivity.
  - exfalso. apply H; [lia | reflexivity].
Qed.

(** The loop over a sequence that starts with the posts [ps] and then ends,
    or is longer than the limit. *)
Lemma posts_loop_window (fuel : nat) (posts : iterator Post) (max_posts : Z)
    (ps : list Post) :
  0 <= max_posts ->
  (Z.to_nat max_posts < fuel)%nat ->
  (forall i p, nth_error ps i = Some p -> posts i = Yield p) ->
  posts (List.length ps) = StopIteration \/ max_posts < len ps ->
  posts_loop fuel posts max_posts 0 empty_acc
  = Finished (fold_left process_post (firstn (Z.to_nat max_posts) ps) empty_acc)
             (Nat.min (List.length ps) (S (Z.to_nat max_posts))).
Proof.
  intros H0 Hf Hy Hend.
  set (w := firstn (Z.to_nat max_posts) ps).
  assert (List.length w = Nat.min (Z.to_nat max_posts) (List.length ps)) as Hw
    by apply length_firstn.
  replace fuel with (List.length w + (fuel - List.length w))%nat by lia.
  rewrite posts_loop_yields.
  - cbn [Nat.add].
    destruct (fuel - List.length w)%nat as [|fuel'] eqn:Ef; [lia|].
    cbn [posts_loop].
    destruct (Nat.le_gt_cases (List.length ps) (Z.to_nat max_posts)) as [Hle|Hgt].
    + destruct Hend as [Hs|Hl]; [|unfold len in Hl; lia].
      replace (List.length w) with (List.length ps) by lia.
      rewrite Hs. f_equal. lia.
    + assert (List.length w = Z.to_nat max_posts) as Hw' by lia.
      destruct (nth_error ps (List.length w)) as [p|] eqn:Ep.
      * rewrite (Hy _ _ Ep).
        assert ((Z.of_nat (List.length w) >=? max_posts) = true) as ->.
        { rewrite Z.geb_leb. apply Z.leb_le. lia. }
        f_equal. lia.
      * apply nth_error_None in Ep. lia.
  - intros j p Hj. cbn [Nat.add]. apply Hy.
    unfold w in Hj. rewrite nth_error_firstn in Hj.
    destruct (j <? Z.to_nat max_posts)%nat; [assumption | discriminate].
  - cbn [Nat.add]. lia.
Qed.

(** ** Posting patterns *)

(** C6. For a non-empty sequence of timestamps the most active day and the
    most active hour are buckets holding the maximum count of their
    histogram, and among the buckets holding it the first one in the order
    Monday to Sunday, respectively 0 to 23: every earlier bucket holds
    strictly less. Each bucket counts the timestamps falling in it. *)
Theorem most_active_is_first_maximum (ts : list datetime) :
  ts <> [] ->
  Forall (fun t => valid t = true) ts ->
  exists r d h,
    analyze_posting_patterns ts = Ok r
    /\ dict_get r (KStr "day_activity") = Some (VDict (count_dict (day_histogram ts)))
    /\ dict_get r (KStr "most_active_day") = Some (VStr d)
    /\ first_max (KStr d) (day_histogram ts)
    /\ dict_get r (KStr "hour_activity") = Some (VDict (count_dict (hour_histogram ts)))
    /\ dict_get r (KStr "most_active_hour") = Some (VInt h)
    /\ first_max (KInt h) (hour_histogram ts).
Proof.
  intros Hne Hv.
  destruct (analyze_posting_patterns_ok ts Hne Hv) as (d & h & freq & E & Hd & Hh & _).
  eexists _, d, h. split; [exact E|]. repeat split; assumption.
Qed.

Lemma most_active_is_first_maximum_witness :
  week_times <> [] /\
  Forall (fun t => valid t = true) week_times /\
  exists r d h,
    analyze_posting_patterns week_times = Ok r
    /\ dict_get r (KStr "day_activity")
       = Some (VDict (count_dict (day_histogram week_times)))
    /\ dict_get r (KStr "most_active_day") = Some (VStr d)
    /\ first_max (KStr d) (day_histogram week_times)
    /\ dict_get r (KStr "hour_activity")
       = Some (VDict (count_dict (hour_histogram week_times)))
    /\ dict_get r (KStr "most_active_hour") = Some (VInt h)
    /\ first_max (KInt h) (hour_histogram week_times).
Proof.
  assert (week_times <> []) as Hne by discriminate.
  assert (Forall (fun t => valid t = true) week_times) as Hv
    by (repeat constructor).
  split; [exact Hne|]. split; [exact Hv|].
  exact (most_active_is_first_maximum week_times Hne Hv).
Defined.

(** C2, as stated, fails: for no timestamps the summary holds no histogram,
    so no bucket is present in it. *)
Lemma empty_input_has_no_histograms :
  ~ (exists r dc hc,
       analyze_posting_patterns [] = Ok r
       /\ dict_get r (KStr "day_activity") = Some (VDict dc)
       /\ dict_keys dc = day_keys
       /\ dict_get r (KStr "hour_activity") = Some (VDict hc)
       /\ dict_keys hc = hour_keys).
Proof.
  intros (r & dc & hc & E & Hd & _). inversion E; subst r. discriminate Hd.
Qed.

(** C2, amended. For the empty sequence of timestamps the pattern analyzer
    returns the empty summary: no histogram, no most active day or hour and
    no average frequency are in it. It does not fail. *)
Theorem empty_input_empty_summary :
  analyze_posting_patterns [] = Ok []
  /\ forall r k, analyze_posting_patterns [] = Ok r -> dict_get r k = None.
Proof.
  split; [reflexivity|]. intros r k E. inversion E. reflexivity.
Qed.

Lemma empty_input_empty_summary_witness :
  analyze_posting_patterns [] = Ok []
  /\ dict_get (V := value) [] (KStr "day_activity") = None.
Proof.
  split; [exact (proj1 empty_input_empty_summary)|].
  exact (proj2 empty_input_empty_summary [] (KStr "day_activity") eq_refl).
Defined.

(** C3, as stated, fails: with the older of two timestamps ten days apart
    given first, the average is 2, not 2/10, and it changes when the input
    is reversed. *)
Lemma frequency_depends_on_input_order :
  1 < len oldest_first
  /\ ~ (exists q, post_frequency_days oldest_first = Ok (VFloat q)
                  /\ Qeq q (span_frequency oldest_first))
  /\ post_frequency_days oldest_first <> post_frequency_days (rev oldest_first).
Proof.
  split; [reflexivity|]. split.
  - intros (q & E & Hq). vm_compute in E. inversion E; subst q.
    vm_compute in Hq. discriminate Hq.
  - vm_compute. discriminate.
Qed.

(** C3, amended. For more than one timestamp the average frequency is the
    float quotient (the double nearest to the quotient) of the number of
    timestamps by [max(d, 1)], where [d] is the signed number of whole days
    (rounded down) from the last timestamp of the input to the first one. It
    is the float quotient of the number of timestamps by
    [max(days_between(earliest, latest), 1)] when the first timestamp of the
    input is the latest and the last one the earliest. For exactly one
    timestamp it is 0, and for none the summary holds no average. *)
Theorem frequency_uses_first_minus_last (ts : list datetime) :
  Forall (fun t => valid t = true) ts ->
  exists r,
    analyze_posting_patterns ts = Ok r
    /\ match ts with
       | [] => dict_get r (KStr "post_frequency_days") = None
       | [_] => dict_get r (KStr "post_frequency_days") = Some (VInt 0)
       | first :: _ =>
           let d := (total_us first - total_us (last ts first)) / US_PER_DAY in
           days (sub first (last ts first)) = d
           /\ dict_get r (KStr "post_frequency_days")
              = Some (VFloat (float_quotient (len ts) (Z.max d 1)))
           /\ is_double_of (len ts) (Z.max d 1)
                           (float_quotient (len ts) (Z.max d 1))
           /\ (total_us first = latest_us ts ->
               total_us (last ts first) = earliest_us ts ->
               dict_get r (KStr "post_frequency_days")
               = Some (VFloat (float_quotient (len ts)
                                              (Z.max (days_between ts) 1))))
       end.
Proof.
  intro Hv. destruct ts as [|first rest].
  - exists []. split; reflexivity.
  - destruct (analyze_posting_patterns_ok (first :: rest)) as
      (d & h & freq & E & _ & _ & Ef); [discriminate | assumption |].
    eexists. split; [exact E|]. destruct rest as [|u rest].
    + rewrite post_frequency_days_one in Ef. inversion Ef. reflexivity.
    + pose proof (post_frequency_days_many first (u :: rest)) as Hm.
      rewrite Ef in Hm.
      assert (freq = VFloat (float_quotient (len (first :: u :: rest))
                (Z.max (days (sub first (last (first :: u :: rest) first))) 1)))
        as -> by (specialize (Hm ltac:(discriminate)); congruence).
      clear Hm Ef. set (ts := first :: u :: rest) in *.
      cbv zeta. rewrite <- sub_days. split; [reflexivity|].
      split; [reflexivity|]. split.
      * apply float_quotient_is_double; [|lia].
        unfold ts, len. cbn [List.length]. lia.
      * intros Hl He. cbn [dict_get key_eqb String.eqb Ascii.eqb Bool.eqb].
        unfold days_between. rewrite <- Hl, <- He, <- sub_days. reflexivity.
Qed.

Lemma frequency_uses_first_minus_last_witness :
  Forall (fun t => valid t = true) newest_first /\
  exists r,
    analyze_posting_patterns newest_first = Ok r
    /\ days (sub nov_11 nov_1) = 10
    /\ dict_get r (KStr "post_frequency_days")
       = Some (VFloat (Qmake 3602879701896397 18014398509481984)).
Proof.
  assert (Forall (fun t => valid t = true) newest_first) as Hv
    by (repeat constructor).
  split; [exact Hv|].
  destruct (frequency_uses_first_minus_last newest_first Hv) as (r & E & Hd & Hf & _).
  exists r. split; [exact E|]. split; [exact Hd|exact Hf].
Defined.

(** ** Post aggregation *)

(** C1, as stated, fails: when the sequence raises after yielding one post,
    the bundle returned is the zeroed one, not the bundle of that post. *)
Lemma failure_discards_consumed_posts :
  let posts := iter_of [post_a] (Raises timed_out) in
  posts 0%nat = Yield post_a
  /\ posts 1%nat = Raises timed_out
  /\ dict_get (bundle_of [post_a]) (KStr "posts_analyzed") = Some (VInt 1)
  /\ analyze_posts 10 posts 5 = Some empty_results
  /\ analyze_posts 10 posts 5 <> Some (bundle_of [post_a]).
Proof.
  cbv zeta. repeat split; try reflexivity.
  vm_compute. discriminate.
Qed.

(** C1, amended. Post aggregation returns a bundle and never propagates a
    failure of the provider's sequence. If enumerating the sequence raises
    before the window is closed, the posts consumed so far are discarded
    with the rest: the bundle returned is the zeroed one (no post analyzed,
    empty lists, empty time patterns), whatever was consumed. *)
Theorem failure_returns_zeroed_bundle (fuel : nat) (posts : iterator Post)
    (max_posts : Z) :
  (Z.to_nat max_posts < fuel)%nat ->
  (exists d, analyze_posts fuel posts max_posts = Some d)
  /\ forall (n : nat) (e : exn),
       (forall i, (i < n)%nat -> exists p, posts i = Yield p) ->
       posts n = Raises e ->
       Z.of_nat n <= max_posts ->
       analyze_posts fuel posts max_posts = Some empty_results
       /\ dict_get empty_results (KStr "posts_analyzed") = Some (VInt 0)
       /\ dict_get empty_results (KStr "posts_data") = Some (VList []).
Proof.
  intro Hf. split; [now apply analyze_posts_returns|].
  intros n e Hy Hr Hn. split; [|split; reflexivity].
  unfold analyze_posts.
  rewrite (posts_loop_raises n fuel posts max_posts 0 empty_acc e);
    try assumption; try reflexivity.
  lia.
Qed.

Lemma failure_returns_zeroed_bundle_witness :
  let posts := iter_of [post_a; post_b] (Raises timed_out) in
  (Z.to_nat 5 < 10)%nat
  /\ (forall i, (i < 2)%nat -> exists p, posts i = Yield p)
  /\ posts 2%nat = Raises timed_out
  /\ Z.of_nat 2 <= 5
  /\ analyze_posts 10 posts 5 = Some empty_results.
Proof.
  cbv zeta.
  assert (Z.to_nat 5 < 10)%nat as Hf by (vm_compute; lia).
  assert (forall i, (i < 2)%nat ->
            exists p, iter_of [post_a; post_b] (Raises timed_out) i = Yield p) as Hy.
  { intros [|[|i]] Hi; [eexists; reflexivity | eexists; reflexivity | lia]. }
  assert (Z.of_nat 2 <= 5) as Hn by (vm_compute; discriminate).
  split; [exact Hf|]. split; [exact Hy|]. split; [reflexivity|]. split; [exact Hn|].
  exact (proj1 (proj2 (failure_returns_zeroed_bundle 10
                         (iter_of [post_a; post_b] (Raises timed_out)) 5 Hf)
                      2%nat timed_out Hy eq_refl Hn)).
Defined.

(** C5, as stated, fails: with limit 1 and a sequence of two posts, two
    posts are taken out of the sequence; and what follows the first post
    decides the bundle: if the sequence raises there, no post is in it. *)
Lemma window_takes_more_than_limit :
  ~ (exists n, posts_consumed 10 (iter_of [post_a; post_b] StopIteration) 1 = Some n
               /\ Z.of_nat n <= 1)
  /\ analyze_posts 10 (iter_of [post_a; post_b] StopIteration) 1
     = Some (bundle_of [post_a])
  /\ analyze_posts 10 (iter_of [post_a] (Raises timed_out)) 1 = Some empty_results.
Proof.
  split; [|split; reflexivity].
  intros (n & E & Hn). vm_compute in E. inversion E; subst n.
  vm_compute in Hn. apply Hn. reflexivity.
Qed.

(** C5, amended. For every non-negative limit and every sequence of posts,
    ended or not, the bundle holds the summaries of the first
    [min(limit, n)] posts, where [n] is the number of posts the sequence
    yields: never more than [limit], and exactly [n], without padding, when
    the sequence ends after fewer than [limit] posts. When the sequence is
    longer than [limit], aggregation takes [limit + 1] posts out of it before
    it stops, the last of which it drops. *)
Theorem window_holds_first_limit_posts (fuel : nat) (posts : iterator Post)
    (max_posts : Z) (ps : list Post) :
  0 <= max_posts ->
  (Z.to_nat max_posts < fuel)%nat ->
  Forall (fun p => valid (date_utc p) = true) ps ->
  (forall i p, nth_error ps i = Some p -> posts i = Yield p) ->
  posts (List.length ps) = StopIteration \/ max_posts < len ps ->
  let window := firstn (Z.to_nat max_posts) ps in
  exists d,
    analyze_posts fuel posts max_posts = Some d
    /\ d = bundle_of window
    /\ dict_get d (KStr "posts_analyzed") = Some (VInt (Z.min max_posts (len ps)))
    /\ dict_get d (KStr "posts_data") = Some (VList (map post_data window))
    /\ posts_consumed fuel posts max_posts
       = Some (Nat.min (List.length ps) (S (Z.to_nat max_posts))).
Proof.
  intros H0 Hf Hv Hy Hend window.
  unfold analyze_posts, posts_consumed.
  rewrite (posts_loop_window fuel posts max_posts ps) by assumption.
  fold window. fold (bundle_of window).
  destruct (bundle_of_posts window) as [rest Hb].
  { apply Forall_forall. intros p Hp. rewrite Forall_forall in Hv.
    apply Hv. rewrite <- (firstn_skipn (Z.to_nat max_posts) ps).
    apply in_or_app. now left. }
  exists (bundle_of window). repeat split.
  - rewrite Hb. cbn [dict_get key_eqb]. rewrite String.eqb_refl.
    do 2 f_equal. unfold len, window. rewrite length_firstn. lia.
  - rewrite Hb. reflexivity.
Qed.

Lemma window_holds_first_limit_posts_witness :
  let posts := iter_of [post_a; post_b; post_c] StopIteration in
  0 <= 2
  /\ (Z.to_nat 2 < 10)%nat
  /\ Forall (fun p => valid (date_utc p) = true) [post_a; post_b; post_c]
  /\ (forall i p, nth_error [post_a; post_b; post_c] i = Some p -> posts i = Yield p)
  /\ 2 < len [post_a; post_b; post_c]
  /\ exists d,
       analyze_posts 10 posts 2 = Some d
       /\ dict_get d (KStr "posts_analyzed") = Some (VInt 2)
       /\ dict_get d (KStr "posts_data")
          = Some (VList [post_data post_a; post_data post_b])
       /\ posts_consumed 10 posts 2 = Some 3%nat.
Proof.
  cbv zeta.
  assert (0 <= 2) as H0 by (vm_compute; discriminate).
  assert (Z.to_nat 2 < 10)%nat as Hf by (vm_compute; lia).
  assert (Forall (fun p => valid (date_utc p) = true) [post_a; post_b; post_c])
    as Hv by (repeat constructor).
  assert (forall i p, nth_error [post_a; post_b; post_c] i = Some p ->
            iter_of [post_a; post_b; post_c] StopIteration i = Yield p) as Hy.
  { intros i p Hp. unfold iter_of. now rewrite Hp. }
  assert (2 < len [post_a; post_b; post_c]) as Hl by reflexivity.
  repeat (split; [assumption|]).
  destruct (window_holds_first_limit_posts 10
              (iter_of [post_a; post_b; post_c] StopIteration) 2
              [post_a; post_b; post_c] H0 Hf Hv Hy (or_intror Hl))
    as (d & E & _ & Hn & Hd & Hc).
  exists d. repeat split; assumption.
Defined.

(** ** Presence probing *)

Lemma length_set_future {B} (fs : list (option B)) (i : nat) (b : B) :
  List.length (set_future fs i b) = List.length fs.
Proof.
  revert i. induction fs as [|f fs IH]; intros [|i]; simpl; auto.
Qed.

Lemma nth_error_set_future {B} (fs : list (option B)) (i j : nat) (b : B) :
  (i < List.length fs)%nat ->
  nth_error (set_future fs i b) j
  = if (i =? j)%nat then Some (Some b) else nth_error fs j.
Proof.
  revert i j. induction fs as [|f fs IH]; intros i j Hi; simpl in Hi; [lia|].
  destruct i as [|i], j as [|j]; simpl; try reflexivity.
  apply IH. lia.
Qed.

Section Executor.

Context {A B : Type} (fn : A -> B) (inputs : list A).

Lemma futures_ok_step (fs : list (option B)) (i : nat) :
  futures_ok fn inputs fs ->
  futures_ok fn inputs
             (match nth_error inputs i with
              | Some a => set_future fs i (fn a)
              | None => fs
              end).
Proof.
  intros [Hl Hf]. destruct (nth_error inputs i) as [a|] eqn:Ea; [|now split].
  assert (i < List.length fs)%nat as Hi.
  { rewrite Hl. apply nth_error_Some. congruence. }
  split; [now rewrite length_set_future|].
  intros j a' Ej. rewrite nth_error_set_future by assumption.
  destruct (Nat.eqb_spec i j) as [->|Hne]; [|auto].
  right. congruence.
Qed.

Lemma run_tasks_done (schedule : list nat) :
  forall fs, futures_ok fn inputs fs ->
  futures_ok fn inputs (run_tasks fn inputs schedule fs) /\
  forall j a, nth_error inputs j = Some a ->
    In j schedule \/ nth_error fs j = Some (Some (fn a)) ->
    nth_error (run_tasks fn inputs schedule fs) j = Some (Some (fn a)).
Proof.
  induction schedule as [|i rest IH]; intros fs Hok.
  - split; [assumption|]. intros j a _ [[]|H]. exact H.
  - cbn [run_tasks].
    pose proof (futures_ok_step fs i Hok) as Hok1.
    destruct (IH _ Hok1) as [Hok2 Hdone]. split; [assumption|].
    intros j a Ej Hj. apply Hdone; [assumption|].
    destruct Hok as [Hl Hf].
    destruct (Nat.eq_dec i j) as [->|Hne].
    + right. rewrite Ej. rewrite nth_error_set_future.
      * now rewrite Nat.eqb_refl.
      * rewrite Hl. apply nth_error_Some. congruence.
    + destruct Hj as [[E|Hin]|Hd]; [contradiction | now left | right].
      destruct (nth_error inputs i) as [ai|] eqn:Ei; [|assumption].
      rewrite nth_error_set_future.
      * apply Nat.eqb_neq in Hne. now rewrite Hne.
      * rewrite Hl. apply nth_error_Some. congruence.
Qed.

End Executor.

Lemma read_futures_all {A B} (fn : A -> B) (inputs : list A) :
  forall fs : list (option B),
  List.length fs = List.length inputs ->
  (forall j a, nth_error inputs j = Some a ->
               nth_error fs j = Some (Some (fn a))) ->
  read_futures fs = Some (map fn inputs).
Proof.
  induction inputs as [|a inputs IH]; intros fs Hl Hf.
  - destruct fs; [reflexivity | discriminate].
  - destruct fs as [|f fs]; [discriminate|].
    pose proof (Hf 0%nat a eq_refl) as H0. simpl in H0. inversion H0; subst f.
    cbn [read_futures map]. rewrite IH; [reflexivity | simpl in Hl; lia |].
    intros j a' Ej. exact (Hf (S j) a' Ej).
Qed.

Lemma futures_ok_pending {A B} (fn : A -> B) (inputs : list A) :
  futures_ok fn inputs (repeat None (List.length inputs)).
Proof.
  split; [apply repeat_length|]. intros j a Ej. left.
  apply nth_error_repeat. apply nth_error_Some. congruence.
Qed.

(** Whatever the order in which the tasks complete, [executor.map] gives the
    results in the order of the inputs. *)
Lemma executor_map_ordered {A B} (fn : A -> B) (inputs : list A)
    (schedule : list nat) :
  Permutation schedule (seq 0 (List.length inputs)) ->
  executor_map fn inputs schedule = Some (map fn inputs).
Proof.
  intro Hp. unfold executor_map.
  destruct (run_tasks_done fn inputs schedule _ (futures_ok_pending fn inputs))
    as [[Hl _] Hdone].
  apply read_futures_all; [assumption|].
  intros j a Ej. apply Hdone; [assumption|]. left.
  apply (Permutation_in _ (Permutation_sym Hp)). apply in_seq.
  assert (j < List.length inputs)%nat by (apply nth_error_Some; congruence). lia.
Qed.

Lemma check_url_url (get : http_get) (url : string) :
  dict_get (check_url get url) (KStr "url") = Some (VStr url).
Proof.
  unfold check_url. destruct (get url) as [code|e]; cbn [bind try_except].
  - destruct (code =? 200); reflexivity.
  - reflexivity.
Qed.

(** C7. For every list of [k] URLs, probing returns exactly [k] results, the
    i-th being the result of checking the i-th URL, whatever the order in
    which the probe tasks complete and whichever of them fail. *)
Theorem probe_results_in_template_order (get : http_get) (urls : list string)
    (schedule : list nat) :
  Permutation schedule (seq 0 (List.length urls)) ->
  exists results,
    probe get urls schedule = Some results
    /\ results = map (check_url get) urls
    /\ List.length results = List.length urls
    /\ forall i url, nth_error urls i = Some url ->
         exists r, nth_error results i = Some r
                   /\ r = check_url get url
                   /\ dict_get r (KStr "url") = Some (VStr url).
Proof.
  intro Hp. exists (map (check_url get) urls). split.
  - unfold probe. now apply executor_map_ordered.
  - split; [reflexivity|]. split; [apply length_map|].
    intros i url Hi. exists (check_url get url).
    split; [now apply map_nth_error|]. split; [reflexivity | apply check_url_url].
Qed.

Lemma probe_results_in_template_order_witness :
  Permutation [3; 6; 1; 0; 5; 2; 4]%nat (seq 0 (List.length (sites_to_check "alice")))
  /\ exists results,
       search_external_references sample_net "alice" [3; 6; 1; 0; 5; 2; 4]%nat
       = Some results
       /\ List.length results = 7%nat.
Proof.
  assert (Permutation [3; 6; 1; 0; 5; 2; 4]%nat
                      (seq 0 (List.length (sites_to_check "alice")))) as Hp.
  { cbn [sites_to_check List.length seq].
    apply (perm_trans (l' := [3; 1; 0; 2; 6; 5; 4]%nat)).
    - apply perm_skip.
      apply (perm_trans (l' := [1; 6; 0; 5; 2; 4]%nat)); [apply perm_swap|].
      apply perm_skip.
      apply (perm_trans (l' := [0; 6; 5; 2; 4]%nat)); [apply perm_swap|].
      apply perm_skip.
      apply (perm_trans (l' := [6; 2; 5; 4]%nat)); [apply perm_skip, perm_swap|].
      apply (perm_trans (l' := [2; 6; 5; 4]%nat)); [apply perm_swap|].
      apply Permutation_refl.
    - apply (perm_trans (l' := [1; 3; 0; 2; 6; 5; 4]%nat)); [apply perm_swap|].
      apply (perm_trans (l' := [1; 0; 3; 2; 6; 5; 4]%nat));
        [apply perm_skip, perm_swap|].
      apply (perm_trans (l' := [0; 1; 3; 2; 6; 5; 4]%nat)); [apply perm_swap|].
      do 2 apply perm_skip.
      apply (perm_trans (l' := [2; 3; 6; 5; 4]%nat)); [apply perm_swap|].
      do 2 apply perm_skip.
      apply (perm_trans (l' := [6; 4; 5]%nat)); [apply perm_skip, perm_swap|].
      apply (perm_trans (l' := [4; 6; 5]%nat)); [apply perm_swap|].
      apply perm_skip, perm_swap. }
  split; [exact Hp|].
  destruct (probe_results_in_template_order sample_net (sites_to_check "alice")
              _ Hp) as (results & E & _ & Hl & _).
  exists results. split; [exact E | exact Hl].
Defined.

(** C8. A check gives status Found for a response with status code 200,
    status Not found together with the status code for any other response
    received, and status Error together with the description of the
    exception when the request raises; in each case it returns an entry for
    the URL and raises nothing. *)
Theorem check_url_classifies (get : http_get) (url : string) :
  let r := check_url get url in
  dict_get r (KStr "url") = Some (VStr url)
  /\ dict_get r (KStr "platform") = Some (VStr (platform url))
  /\ match get url with
     | Ok status_code =>
         dict_get r (KStr "response_code") = Some (VInt status_code)
         /\ dict_get r (KStr "status")
            = Some (VStr (if status_code =? 200 then "Found" else "Not found"))
     | Raise e =>
         dict_get r (KStr "response_code") = Some (VStr (str_of_exn e))
         /\ dict_get r (KStr "status") = Some (VStr "Error")
     end.
Proof.
  cbv zeta. unfold check_url.
  destruct (get url) as [code|e]; cbn [bind try_except].
  - destruct (code =? 200); repeat split; reflexivity.
  - repeat split; reflexivity.
Qed.

(** ** Connections *)

Lemma str_in_In (x : string) (l : list string) : str_in x l = true <-> In x l.
Proof.
  unfold str_in. rewrite existsb_exists. split.
  - intros [y [Hy E]]. apply String.eqb_eq in E. now subst.
  - intro H. exists x. split; [assumption | apply String.eqb_refl].
Qed.

(** A derived list holds the handles of the one list absent from the other. *)
Lemma usernames_not_in_spec (xs ys : list connection) (u : string) :
  In u (usernames_not_in xs ys)
  <-> In u (map conn_username xs) /\ ~ In u (map conn_username ys).
Proof.
  unfold usernames_not_in. split.
  - intro H. apply in_map_iff in H. destruct H as (x & <- & Hx).
    apply filter_In in Hx. destruct Hx as [Hx Hn].
    split; [now apply in_map|].
    intro Hin. apply str_in_In in Hin. rewrite Hin in Hn. discriminate.
  - intros [H Hn]. apply in_map_iff in H. destruct H as (x & <- & Hx).
    apply in_map. apply filter_In. split; [assumption|].
    destruct (str_in (conn_username x) (map conn_username ys)) eqn:E;
      [|reflexivity].
    apply str_in_In in E. contradiction.
Qed.

Lemma usernames_not_in_perm (xs xs' ys ys' : list connection) (u : string) :
  Permutation xs xs' -> Permutation ys ys' ->
  In u (usernames_not_in xs ys) <-> In u (usernames_not_in xs' ys').
Proof.
  intros Hx Hy. rewrite !usernames_not_in_spec.
  pose proof (Permutation_map conn_username Hx) as Px.
  pose proof (Permutation_map conn_username Hy) as Py.
  split; intros [H1 H2]; split.
  - eapply Permutation_in; eauto.
  - intro H. apply H2. eapply Permutation_in; [apply Permutation_sym|]; eauto.
  - eapply Permutation_in; [apply Permutation_sym|]; eauto.
  - intro H. apply H2. eapply Permutation_in; eauto.
Qed.

(** C9. The two derived lists of the connection data depend on handle
    membership only: [not_following_back] holds the handles of the followees
    that are no follower's handle, [not_followed_back] the handles of the
    followers that are no followee's handle; permuting either input list
    leaves both derived lists the same as sets. *)
Theorem difference_lists_order_independent
    (followers followers' following following' : list connection) :
  Permutation followers followers' ->
  Permutation following following' ->
  exists nfb nfd nfb' nfd',
    dict_get (connections_data followers following) (KStr "not_following_back")
    = Some (VList (map VStr nfb))
    /\ dict_get (connections_data followers following) (KStr "not_followed_back")
       = Some (VList (map VStr nfd))
    /\ dict_get (connections_data followers' following') (KStr "not_following_back")
       = Some (VList (map VStr nfb'))
    /\ dict_get (connections_data followers' following') (KStr "not_followed_back")
       = Some (VList (map VStr nfd'))
    /\ (forall u, In u nfb <-> In u (map conn_username following)
                               /\ ~ In u (map conn_username followers))
    /\ (forall u, In u nfd <-> In u (map conn_username followers)
                               /\ ~ In u (map conn_username following))
    /\ (forall u, In u nfb <-> In u nfb')
    /\ (forall u, In u nfd <-> In u nfd').
Proof.
  intros Hf Hg.
  exists (usernames_not_in following followers),
         (usernames_not_in followers following),
         (usernames_not_in following' followers'),
         (usernames_not_in followers' following').
  split; [reflexivity|]. split; [reflexivity|].
  split; [reflexivity|]. split; [reflexivity|].
  split; [intro u; apply usernames_not_in_spec|].
  split; [intro u; apply usernames_not_in_spec|].
  split; intro u; apply usernames_not_in_perm; assumption.
Qed.

Lemma difference_lists_order_independent_witness :
  Permutation [ann; bob] [bob; ann]
  /\ Permutation [bob; cy] [cy; bob]
  /\ exists nfb nfd nfb' nfd',
       dict_get (connections_data [ann; bob] [bob; cy]) (KStr "not_following_back")
       = Some (VList (map VStr nfb))
       /\ dict_get (connections_data [ann; bob] [bob; cy]) (KStr "not_followed_back")
          = Some (VList (map VStr nfd))
       /\ dict_get (connections_data [bob; ann] [cy; bob]) (KStr "not_following_back")
          = Some (VList (map VStr nfb'))
       /\ dict_get (connections_data [bob; ann] [cy; bob]) (KStr "not_followed_back")
          = Some (VList (map VStr nfd'))
       /\ (forall u, In u nfb <-> In u nfb')
       /\ (forall u, In u nfd <-> In u nfd').
Proof.
  assert (Permutation [ann; bob] [bob; ann]) as Hf by apply perm_swap.
  assert (Permutation [bob; cy] [cy; bob]) as Hg by apply perm_swap.
  split; [exact Hf|]. split; [exact Hg|].
  destruct (difference_lists_order_independent _ _ _ _ Hf Hg)
    as (nfb & nfd & nfb' & nfd' & E1 & E2 & E3 & E4 & _ & _ & H1 & H2).
  exists nfb, nfd, nfb', nfd'.
  split; [exact E1|]. split; [exact E2|]. split; [exact E3|]. split; [exact E4|].
  split; [exact H1 | exact H2].
Defined.

(** C10. When the profile is private, the caller is not logged in, or the
    enumeration of the followers or of the followees raises, connection
    analysis returns the dictionary with the two keys [followers] and
    [following] only, both empty lists; the keys [followers_count],
    [following_count], [not_following_back] and [not_followed_back] of the
    dictionary returned on success are not in it. *)
Theorem failed_connection_analysis_shape (is_private is_logged_in : bool)
    (get_followers get_followees : node_sequence) :
  is_private = true \/ is_logged_in = false
  \/ failure get_followers <> None \/ failure get_followees <> None ->
  let r := analyze_connections is_private is_logged_in get_followers get_followees in
  r = [(KStr "followers", VList []); (KStr "following", VList [])]
  /\ dict_keys r = [KStr "followers"; KStr "following"]
  /\ (forall k, In k ["followers_count"; "following_count";
                      "not_following_back"; "not_followed_back"] ->
                dict_mem r (KStr k) = false)
  /\ (forall fs gs, failure fs = None -> failure gs = None ->
        let ok := analyze_connections false true fs gs in
        dict_keys ok = connection_keys
        /\ dict_keys ok <> dict_keys r
        /\ forall k, In k ["followers_count"; "following_count";
                           "not_following_back"; "not_followed_back"] ->
                     dict_mem ok (KStr k) = true).
Proof.
  intro H.
  assert (analyze_connections is_private is_logged_in get_followers get_followees
          = no_connections) as E.
  { unfold analyze_connections.
    destruct is_private; [reflexivity|].
    destruct is_logged_in; [|reflexivity]. cbn [negb].
    destruct H as [H|[H|[H|H]]]; try discriminate.
    - unfold collect at 1. destruct (failure get_followers); [reflexivity|congruence].
    - unfold collect. destruct (failure get_followers); [reflexivity|].
      destruct (failure get_followees); [reflexivity|congruence]. }
  cbv zeta. rewrite E. split; [reflexivity|]. split; [reflexivity|]. split.
  - intros k Hk. simpl in Hk.
    destruct Hk as [<-|[<-|[<-|[<-|[]]]]]; reflexivity.
  - intros fs gs Hfs Hgs. unfold analyze_connections, collect.
    rewrite Hfs, Hgs. cbn [negb bind try_except]. split; [reflexivity|].
    split; [discriminate|].
    intros k Hk. simpl in Hk.
    destruct Hk as [<-|[<-|[<-|[<-|[]]]]]; reflexivity.
Qed.

Lemma failed_connection_analysis_shape_witness :
  failure failing_nodes <> None
  /\ analyze_connections false true failing_nodes no_nodes
     = [(KStr "followers", VList []); (KStr "following", VList [])]
  /\ dict_keys (analyze_connections false true no_nodes no_nodes) = connection_keys.
Proof.
  assert (failure failing_nodes <> None) as Hf by discriminate.
  split; [exact Hf|].
  destruct (failed_connection_analysis_shape false true failing_nodes no_nodes
              (or_intror (or_intror (or_introl Hf)))) as (E & _ & _ & Hok).
  split; [exact E|].
  exact (proj1 (Hok no_nodes no_nodes eq_refl eq_refl)).
Defined.

(** ** CSV export *)

Lemma dict_to_list_within (keys : list key) (r : dict) :
  fields_within keys r -> dict_to_list keys r = Ok (cells keys r).
Proof.
  intro Hw. unfold dict_to_list.
  assert (filter (fun k => negb (existsb (key_eqb k) keys)) (dict_keys r) = [])
    as ->; [|reflexivity].
  unfold fields_within in Hw. revert Hw.
  induction (dict_keys r) as [|k l IH]; intro Hw; [reflexivity|].
  cbn [filter]. assert (existsb (key_eqb k) keys = true) as ->.
  { apply existsb_key_In. apply Hw. now left. }
  cbn [negb]. apply IH. intros k' Hk'. apply Hw. now right.
Qed.

Lemma dict_to_list_extra (keys : list key) (r : dict) (k : key) :
  In k (dict_keys r) -> ~ In k keys ->
  dict_to_list keys r = Raise (ValueError "dict contains fields not in fieldnames").
Proof.
  intros Hk Hn. unfold dict_to_list.
  destruct (filter (fun k => negb (existsb (key_eqb k) keys)) (dict_keys r))
    eqn:E; [|reflexivity].
  assert (In k (filter (fun k => negb (existsb (key_eqb k) keys)) (dict_keys r)))
    as Hin.
  { apply filter_In. split; [assumption|].
    destruct (existsb (key_eqb k) keys) eqn:Ek; [|reflexivity].
    apply existsb_key_In in Ek. contradiction. }
  rewrite E in Hin. destruct Hin.
Qed.

Lemma writerows_within (keys : list key) (rs : list dict) :
  forall file, Forall (fields_within keys) rs ->
  writerows keys rs file = (file ++ map (cells keys) rs, Ok tt).
Proof.
  induction rs as [|r rs IH]; intros file Hw.
  - simpl. now rewrite app_nil_r.
  - inversion Hw as [|? ? Hr Hrs]; subst. cbn [writerows].
    rewrite dict_to_list_within by assumption.
    rewrite IH by assumption. cbn [map]. now rewrite <- app_assoc.
Qed.

Lemma writerows_extra (keys : list key) (pre : list dict) (r : dict)
    (post : list dict) (k : key) :
  forall file, Forall (fields_within keys) pre ->
  In k (dict_keys r) -> ~ In k keys ->
  writerows keys (pre ++ r :: post) file
  = (file ++ map (cells keys) pre,
     Raise (ValueError "dict contains fields not in fieldnames")).
Proof.
  induction pre as [|p pre IH]; intros file Hw Hk Hn.
  - cbn [app writerows map]. rewrite (dict_to_list_extra keys r k) by assumption.
    now rewrite app_nil_r.
  - inversion Hw as [|? ? Hp Hpre]; subst. cbn [app writerows].
    rewrite dict_to_list_within by assumption.
    rewrite IH by assumption. cbn [map]. now rewrite <- app_assoc.
Qed.

(** C4, as stated, fails: a second record with a field the first one lacks
    is not written with that field dropped, the writer raises instead; and a
    second record lacking a field of the first one raises no error, the
    cell is written empty. *)
Lemma csv_extra_raises_missing_defaults :
  snd (write_table [rec_a1; rec_a2_b3]) <> Ok tt
  /\ fst (write_table [rec_a1; rec_a2_b3]) = [[VStr "a"]; [VInt 1]]
  /\ ~ (exists e, snd (write_table [rec_a1_b2; rec_b3]) = Raise e)
  /\ fst (write_table [rec_a1_b2; rec_b3])
     = [[VStr "a"; VStr "b"]; [VInt 1; VInt 2]; [VStr ""; VInt 3]].
Proof.
  split; [vm_compute; discriminate|]. split; [reflexivity|].
  split; [|reflexivity]. intros [e E]. vm_compute in E. discriminate E.
Qed.

(** C4, amended. In CSV export the field set of a table is the first
    record's. A later record with a field outside that set is not written and
    the field is not dropped: the writer raises an error there, the rows
    before it being already written. A later record lacking a field of the
    set raises no error: the cell is written as the empty string. *)
Theorem csv_rows_follow_first_record (first : dict) (rest : list dict) :
  let keys := dict_keys first in
  let header := map key_value keys in
  (Forall (fields_within keys) rest ->
   write_table (first :: rest)
   = (header :: map (cells keys) (first :: rest), Ok tt))
  /\ (forall pre r post k,
        rest = pre ++ r :: post ->
        Forall (fields_within keys) pre ->
        In k (dict_keys r) -> ~ In k keys ->
        write_table (first :: rest)
        = (header :: map (cells keys) (first :: pre),
           Raise (ValueError "dict contains fields not in fieldnames")))
  /\ (forall r k, In k keys -> dict_get r k = None ->
        forall i, nth_error keys i = Some k ->
        nth_error (cells keys r) i = Some (VStr "")).
Proof.
  cbv zeta. assert (fields_within (dict_keys first) first) as Hfirst
    by (intros k Hk; exact Hk).
  split; [|split].
  - intro Hw. unfold write_table.
    rewrite writerows_within by (constructor; assumption). reflexivity.
  - intros pre r post k -> Hw Hk Hn. unfold write_table.
    rewrite (writerows_extra _ (first :: pre) r post k);
      [reflexivity | constructor; assumption | assumption | assumption].
  - intros r k _ Hg i Hi. unfold cells.
    rewrite (map_nth_error _ _ _ Hi). now rewrite Hg.
Qed.

Lemma csv_rows_follow_first_record_witness :
  Forall (fields_within (dict_keys rec_a1_b2)) [rec_b3]
  /\ write_table [rec_a1_b2; rec_b3]
     = ([[VStr "a"; VStr "b"]; [VInt 1; VInt 2]; [VStr ""; VInt 3]], Ok tt)
  /\ In (KStr "b") (dict_keys rec_a2_b3)
  /\ ~ In (KStr "b") (dict_keys rec_a1)
  /\ write_table [rec_a1; rec_a2_b3]
     = ([[VStr "a"]; [VInt 1]],
        Raise (ValueError "dict contains fields not in fieldnames")).
Proof.
  assert (Forall (fields_within (dict_keys rec_a1_b2)) [rec_b3]) as Hw.
  { constructor; [|constructor]. intros x Hx. simpl in Hx.
    destruct Hx as [<-|[]]. simpl. tauto. }
  assert (In (KStr "b") (dict_keys rec_a2_b3)) as Hk by (simpl; tauto).
  assert (~ In (KStr "b") (dict_keys rec_a1)) as Hn.
  { simpl. intros [H|[]]. discriminate H. }
  split; [exact Hw|].
  split; [exact (proj1 (csv_rows_follow_first_record rec_a1_b2 [rec_b3]) Hw)|].
  split; [exact Hk|]. split; [exact Hn|].
  exact (proj1 (proj2 (csv_rows_follow_first_record rec_a1 [rec_a2_b3]))
               [] rec_a2_b3 [] (KStr "b") eq_refl (Forall_nil _) Hk Hn).
Defined.

(** ** Worked scenarios *)

(** Three posts of one week, captioned [#cat #dog], [#cat] and nothing. *)
Example week_of_posts :
  exists d patterns,
    analyze_posts 10 (iter_of [post_a; post_b; post_c] StopIteration) 50 = Some d
    /\ dict_get d (KStr "top_hashtags")
       = Some (VList [VTuple [VStr "cat"; VInt 2]; VTuple [VStr "dog"; VInt 1]])
    /\ dict_get d (KStr "time_patterns") = Some (VDict patterns)
    /\ dict_get patterns (KStr "most_active_day") = Some (VStr "Monday")
    /\ dict_get patterns (KStr "most_active_hour") = Some (VInt 9).
Proof.
  eexists. eexists. split; [vm_compute; reflexivity|].
  repeat split; reflexivity.
Qed.

(** Two platforms, the first answering 200 and the second timing out, with
    the second task completing first. *)
Example found_then_error :
  exists r1 r2,
    probe sample_net ["https://github.com/alice"; "https://www.reddit.com/user/alice"]
          [1; 0]%nat
    = Some [r1; r2]
    /\ dict_get r1 (KStr "platform") = Some (VStr "Github")
    /\ dict_get r1 (KStr "status") = Some (VStr "Found")
    /\ dict_get r2 (KStr "platform") = Some (VStr "Reddit")
    /\ dict_get r2 (KStr "status") = Some (VStr "Error")
    /\ dict_get r2 (KStr "response_code") = Some (VStr "timed out").
Proof.
  eexists. eexists. split; [vm_compute; reflexivity|].
  repeat split; reflexivity.
Qed.

(** A private profile: the connections are not enumerated. *)
Example private_profile_skipped :
  analyze_connections true false failing_nodes failing_nodes = no_connections.
Proof. reflexivity. Qed.

(** ** Further properties of the posting patterns *)

Lemma total_hist_add (keys : list key) (f g : key -> Z) :
  total (hist keys (fun k => f k + g k)) = total (hist keys f) + total (hist keys g).
Proof.
  unfold total, hist. induction keys as [|k keys IH]; [reflexivity|].
  cbn [map fold_right snd] in *. lia.
Qed.

Lemma total_hist_zero (keys : list key) (f : key -> Z) :
  (forall k, In k keys -> f k = 0) -> total (hist keys f) = 0.
Proof.
  unfold total, hist. induction keys as [|k keys IH]; intro H; [reflexivity|].
  cbn [map fold_right snd]. rewrite IH by (intros; apply H; now right).
  rewrite (H k) by now left. reflexivity.
Qed.

Lemma total_hist_indicator (keys : list key) (a : key) :
  NoDup keys -> In a keys ->
  total (hist keys (fun k => if key_eqb a k then 1 else 0)) = 1.
Proof.
  intro ND. induction ND as [|k keys Hn ND IH]; intro Ha; [destruct Ha|].
  unfold total, hist in *. cbn [map fold_right snd].
  destruct (key_eqb a k) eqn:E.
  - apply key_eqb_eq in E. subst k.
    fold (hist keys (fun k => if key_eqb a k then 1 else 0)).
    fold (total (hist keys (fun k => if key_eqb a k then 1 else 0))).
    rewrite total_hist_zero; [reflexivity|].
    intros k Hk. destruct (key_eqb a k) eqn:E'; [|reflexivity].
    apply key_eqb_eq in E'. subst. contradiction.
  - destruct Ha as [->|Ha]; [now rewrite key_eqb_refl in E|].
    rewrite IH by assumption. reflexivity.
Qed.

(** A histogram whose keys cover every timestamp counts each timestamp
    exactly once. *)
Lemma total_histogram (keys : list key) (kf : datetime -> key)
    (ts : list datetime) :
  NoDup keys ->
  Forall (fun t => In (kf t) keys) ts ->
  total (hist keys (fun k => count_where (fun t => key_eqb (kf t) k) ts)) = len ts.
Proof.
  intros ND Hts. induction Hts as [|t ts Ht Hts IH].
  - apply total_hist_zero. reflexivity.
  - rewrite (hist_ext keys _
              (fun k => (if key_eqb (kf t) k then 1 else 0)
                        + count_where (fun t => key_eqb (kf t) k) ts)).
    + rewrite total_hist_add, IH, total_hist_indicator by assumption.
      unfold len. cbn [List.length]. lia.
    + intros k _. apply count_where_cons.
Qed.

Lemma day_key_In (t : datetime) : In (KStr (day_name t)) day_keys.
Proof. apply list_index_day. Qed.

Lemma total_day_histogram (ts : list datetime) :
  total (day_histogram ts) = len ts.
Proof.
  apply (total_histogram day_keys (fun t => KStr (day_name t)));
    [apply NoDup_day_keys|].
  apply Forall_forall. intros t _. apply day_key_In.
Qed.

Lemma total_hour_histogram (ts : list datetime) :
  Forall (fun t => valid t = true) ts ->
  total (hour_histogram ts) = len ts.
Proof.
  intro Hv. apply (total_histogram hour_keys (fun t => KInt (hour t)));
    [apply NoDup_hour_keys|].
  apply Forall_forall. intros t Ht. apply hour_key_In.
  rewrite Forall_forall in Hv. now apply Hv.
Qed.

Lemma dict_keys_hist (keys : list key) (f : key -> Z) :
  dict_keys (hist keys f) = keys.
Proof.
  unfold dict_keys, hist. rewrite map_map. cbn [fst]. apply map_id.
Qed.

Lemma dict_keys_count_dict (d : counts) : dict_keys (count_dict d) = dict_keys d.
Proof. unfold dict_keys, count_dict. rewrite map_map. reflexivity. Qed.

(** X1. For a non-empty sequence of timestamps the summary holds a day
    histogram with exactly the seven buckets Monday to Sunday and an hour
    histogram with exactly the buckets 0 to 23, in that order, and the counts
    of each histogram add up to the number of timestamps. *)
Theorem histograms_partition_timestamps (ts : list datetime) :
  ts <> [] ->
  Forall (fun t => valid t = true) ts ->
  exists r dc hc,
    analyze_posting_patterns ts = Ok r
    /\ dict_get r (KStr "day_activity") = Some (VDict (count_dict dc))
    /\ dict_keys (count_dict dc) = map KStr days_of_week
    /\ total dc = len ts
    /\ dict_get r (KStr "hour_activity") = Some (VDict (count_dict hc))
    /\ dict_keys (count_dict hc) = map KInt (range 24)
    /\ total hc = len ts.
Proof.
  intros Hne Hv.
  destruct (analyze_posting_patterns_ok ts Hne Hv) as (d & h & freq & E & _).
  eexists _, (day_histogram ts), (hour_histogram ts).
  split; [exact E|]. split; [reflexivity|].
  split; [rewrite dict_keys_count_dict; apply dict_keys_hist|].
  split; [apply total_day_histogram|]. split; [reflexivity|].
  split; [rewrite dict_keys_count_dict; apply dict_keys_hist|].
  now apply total_hour_histogram.
Qed.

Lemma histograms_partition_timestamps_witness :
  week_times <> [] /\
  Forall (fun t => valid t = true) week_times /\
  exists r dc hc,
    analyze_posting_patterns week_times = Ok r
    /\ dict_get r (KStr "day_activity") = Some (VDict (count_dict dc))
    /\ total dc = 3
    /\ dict_get r (KStr "hour_activity") = Some (VDict (count_dict hc))
    /\ total hc = 3.
Proof.
  assert (week_times <> []) as Hne by discriminate.
  assert (Forall (fun t => valid t = true) week_times) as Hv
    by (repeat constructor).
  split; [exact Hne|]. split; [exact Hv|].
  destruct (histograms_partition_timestamps week_times Hne Hv)
    as (r & dc & hc & E & Hd & _ & Td & Hh & _ & Th).
  exists r, dc, hc. split; [exact E|]. split; [exact Hd|]. split; [exact Td|].
  split; [exact Hh | exact Th].
Defined.

Lemma first_max_bounds (k : key) (l : counts) :
  first_max k l ->
  exists n, In (k, n) l /\ forall x, In x l -> snd x <= n.
Proof.
  intros (pre & n & post & -> & Hpre & Hpost). exists n. split.
  - apply in_or_app. right. now left.
  - intros x Hx. apply in_app_or in Hx. destruct Hx as [Hx|[<-|Hx]].
    + specialize (Hpre x Hx). lia.
    + cbn [snd]. lia.
    + now apply Hpost.
Qed.

Lemma total_le_zero (l : counts) :
  (forall x, In x l -> snd x <= 0) -> total l <= 0.
Proof.
  unfold total. induction l as [|x l IH]; intro H; [cbn; lia|].
  cbn [map fold_right]. specialize (H x (or_introl eq_refl)) as Hx.
  assert (fold_right Z.add 0 (map snd l) <= 0) by (apply IH; intros; apply H; now right).
  lia.
Qed.

Lemma count_where_pos (p : datetime -> bool) (ts : list datetime) :
  0 < count_where p ts -> exists t, In t ts /\ p t = true.
Proof.
  unfold count_where, len. intro H.
  destruct (filter p ts) as [|t l] eqn:E; [cbn in H; lia|].
  exists t. apply filter_In. rewrite E. now left.
Qed.

(** The first bucket holding the maximum of a histogram that counts a
    non-empty sequence is a bucket some timestamp falls in. *)
Lemma first_max_inhabited (keys : list key) (kf : datetime -> key)
    (ts : list datetime) (k : key) :
  0 < total (hist keys (fun k => count_where (fun t => key_eqb (kf t) k) ts)) ->
  first_max k (hist keys (fun k => count_where (fun t => key_eqb (kf t) k) ts)) ->
  exists t, In t ts /\ kf t = k.
Proof.
  intros Hpos Hmax. destruct (first_max_bounds _ _ Hmax) as (n & Hin & Hle).
  assert (0 < n) as Hn.
  { destruct (Z.lt_ge_cases 0 n) as [|Hn0]; [assumption|].
    pose proof (total_le_zero _ (fun x Hx => Z.le_trans _ _ _ (Hle x Hx) Hn0)).
    lia. }
  unfold hist in Hin. apply in_map_iff in Hin. destruct Hin as (k' & E & _).
  inversion E; subst k' n.
  destruct (count_where_pos _ _ Hn) as (t & Ht & Hk).
  exists t. split; [assumption|]. now apply key_eqb_eq.
Qed.

(** X2. For a non-empty sequence of timestamps the most active day and the
    most active hour reported are the day and the hour of some timestamp of
    the sequence: a bucket no timestamp falls in is never reported. *)
Theorem most_active_is_inhabited (ts : list datetime) :
  ts <> [] ->
  Forall (fun t => valid t = true) ts ->
  exists r d h,
    analyze_posting_patterns ts = Ok r
    /\ dict_get r (KStr "most_active_day") = Some (VStr d)
    /\ dict_get r (KStr "most_active_hour") = Some (VInt h)
    /\ (exists t, In t ts /\ nth (Z.to_nat (weekday t)) days_of_week "" = d)
    /\ (exists t, In t ts /\ hour t = h).
Proof.
  intros Hne Hv.
  destruct (analyze_posting_patterns_ok ts Hne Hv) as (d & h & freq & E & Hd & Hh & _).
  assert (0 < len ts) as Hlen.
  { destruct ts; [congruence|]. unfold len. cbn [List.length]. lia. }
  eexists _, d, h. split; [exact E|]. split; [reflexivity|]. split; [reflexivity|].
  split.
  - destruct (first_max_inhabited day_keys (fun t => KStr (day_name t)) ts (KStr d))
      as (t & Ht & Hk); [| exact Hd |].
    + fold (day_histogram ts). rewrite total_day_histogram. exact Hlen.
    + exists t. split; [assumption|]. now inversion Hk.
  - destruct (first_max_inhabited hour_keys (fun t => KInt (hour t)) ts (KInt h))
      as (t & Ht & Hk); [| exact Hh |].
    + fold (hour_histogram ts). rewrite total_hour_histogram by assumption.
      exact Hlen.
    + exists t. split; [assumption|]. now inversion Hk.
Qed.

Lemma most_active_is_inhabited_witness :
  week_times <> [] /\
  Forall (fun t => valid t = true) week_times /\
  exists r d h,
    analyze_posting_patterns week_times = Ok r
    /\ dict_get r (KStr "most_active_day") = Some (VStr d)
    /\ dict_get r (KStr "most_active_hour") = Some (VInt h)
    /\ (exists t, In t week_times /\ hour t = h).
Proof.
  assert (week_times <> []) as Hne by discriminate.
  assert (Forall (fun t => valid t = true) week_times) as Hv
    by (repeat constructor).
  split; [exact Hne|]. split; [exact Hv|].
  destruct (most_active_is_inhabited week_times Hne Hv)
    as (r & d & h & E & Hd & Hh & _ & Ht).
  exists r, d, h. split; [exact E|]. split; [exact Hd|]. split; [exact Hh | exact Ht].
Defined.

(** X3. For more than one timestamp, and fewer than [2 ^ 53] of them, the
    average frequency is positive and at most the number of timestamps: the
    divisor is never below 1, whatever the order and the span of the input,
    and rounding the quotient to a double does not take it above the
    count. *)
Theorem frequency_between_zero_and_count (ts : list datetime) :
  1 < len ts ->
  len ts < 2 ^ 53 ->
  Forall (fun t => valid t = true) ts ->
  exists r q,
    analyze_posting_patterns ts = Ok r
    /\ dict_get r (KStr "post_frequency_days") = Some (VFloat q)
    /\ Qlt 0 q
    /\ Qle q (inject_Z (len ts)).
Proof.
  intros Hlen Hmax Hv. destruct ts as [|first [|u rest]];
    try (unfold len in Hlen; cbn [List.length] in Hlen; lia).
  destruct (analyze_posting_patterns_ok (first :: u :: rest)) as
    (d & h & freq & E & _ & _ & Ef); [discriminate | assumption |].
  pose proof (post_frequency_days_many first (u :: rest)) as Hm.
  rewrite Ef in Hm.
  assert (freq = VFloat (float_quotient (len (first :: u :: rest))
            (Z.max (days (sub first (last (first :: u :: rest) first))) 1)))
    as -> by (specialize (Hm ltac:(discriminate)); congruence).
  eexists _, _. split; [exact E|]. split; [reflexivity|].
  apply float_quotient_bounds; lia.
Qed.

Lemma frequency_between_zero_and_count_witness :
  1 < len oldest_first /\
  len oldest_first < 2 ^ 53 /\
  Forall (fun t => valid t = true) oldest_first /\
  exists r q,
    analyze_posting_patterns oldest_first = Ok r
    /\ dict_get r (KStr "post_frequency_days") = Some (VFloat q)
    /\ Qlt 0 q
    /\ Qle q (inject_Z 2).
Proof.
  assert (1 < len oldest_first) as Hl by reflexivity.
  assert (len oldest_first < 2 ^ 53) as Hm by reflexivity.
  assert (Forall (fun t => valid t = true) oldest_first) as Hv
    by (repeat constructor).
  split; [exact Hl|]. split; [exact Hm|]. split; [exact Hv|].
  exact (frequency_between_zero_and_count oldest_first Hl Hm Hv).
Defined.

(** ** Further properties of post aggregation *)

Lemma process_locations (ps : list Post) (st : acc) :
  locations (fold_left process_post ps st) = locations st ++ located ps.
Proof.
  revert st. induction ps as [|p ps IH]; intro st; cbn [fold_left located flat_map].
  - now rewrite app_nil_r.
  - rewrite IH. cbn [process_post locations]. fold (located ps).
    destruct (location p); [now rewrite <- app_assoc | reflexivity].
Qed.

Lemma length_located (ps : list Post) :
  (List.length (located ps) <= List.length ps)%nat.
Proof.
  induction ps as [|p ps IH]; [apply Nat.le_refl|].
  cbn [located flat_map]. fold (located ps). rewrite length_app.
  destruct (location p); cbn [List.length]; lia.
Qed.

(** Whenever the loop ends normally its state is that of the posts it has
    processed: posts the sequence yielded first, each below the limit. *)
Lemma posts_loop_finished (fuel : nat) :
  forall (posts : iterator Post) (max_posts : Z) (i : nat) (st r : acc) (n : nat),
  posts_loop fuel posts max_posts i st = Finished r n ->
  exists ps,
    r = fold_left process_post ps st
    /\ forall j p, nth_error ps j = Some p ->
         posts (i + j)%nat = Yield p /\ Z.of_nat (i + j) < max_posts.
Proof.
  induction fuel as [|fuel IH]; intros posts max_posts i st r n H; [discriminate|].
  cbn [posts_loop] in H. destruct (posts i) as [p| |e] eqn:Ep.
  - destruct (Z.of_nat i >=? max_posts) eqn:E.
    + inversion H; subst. exists []. split; [reflexivity|].
      intros j q Hq. destruct j; discriminate.
    + rewrite Z.geb_leb in E. apply Z.leb_gt in E.
      destruct (IH _ _ _ _ _ _ H) as (ps & -> & Hps).
      exists (p :: ps). split; [reflexivity|].
      intros [|j] q Hq.
      * inversion Hq; subst. rewrite Nat.add_0_r. split; [assumption | lia].
      * replace (i + S j)%nat with (S i + j)%nat by lia. now apply Hps.
  - inversion H; subst. exists []. split; [reflexivity|].
    intros j q Hq. destruct j; discriminate.
  - discriminate.
Qed.

Lemma bundle_of_shape (ps : list Post) :
  bundle_of ps = empty_results
  \/ exists th tm tp, bundle_of ps = bundle (map post_data ps) (located ps) th tm tp.
Proof.
  unfold bundle_of, analysis_results.
  rewrite process_posts_data, process_locations.
  cbn [posts_data locations empty_acc app].
  destruct (analyze_posting_patterns _) as [tp|e]; cbn [bind try_except].
  - right. eexists _, _, tp. reflexivity.
  - now left.
Qed.

(** Every bundle [analyze_posts] returns is the bundle of the posts it has
    processed, and these are at most [max_posts]. *)
Lemma analyze_posts_bundle_of (fuel : nat) (posts : iterator Post)
    (max_posts : Z) (d : dict) :
  analyze_posts fuel posts max_posts = Some d ->
  exists ps, d = bundle_of ps /\ len ps <= Z.max 0 max_posts.
Proof.
  unfold analyze_posts. intro H.
  destruct (posts_loop fuel posts max_posts 0 empty_acc) as [r n|e n|] eqn:E.
  - destruct (posts_loop_finished _ _ _ _ _ _ _ E) as (ps & -> & Hps).
    inversion H; subst. exists ps. split; [reflexivity|].
    destruct ps as [|p ps] using rev_ind; [unfold len; cbn; lia|].
    destruct (Hps (List.length ps) p) as [_ Hlt].
    { rewrite nth_error_app2, Nat.sub_diag by lia. reflexivity. }
    unfold len. rewrite length_app. cbn [List.length]. lia.
  - inversion H; subst. exists []. split; [reflexivity | unfold len; cbn; lia].
  - discriminate.
Qed.

(** X4. Whatever the provider's sequence does, [analyze_posts] returns a
    bundle with exactly the six entries [posts_analyzed], [posts_data],
    [locations], [top_hashtags], [top_mentions] and [time_patterns], in which
    [posts_analyzed] is the length of [posts_data], this length is at most
    the limit (0 for a negative limit), and [locations] is no longer than
    [posts_data]. *)
Theorem bundle_is_well_formed (fuel : nat) (posts : iterator Post) (max_posts : Z) :
  (Z.to_nat max_posts < fuel)%nat ->
  exists l locs th tm tp,
    analyze_posts fuel posts max_posts = Some (bundle l locs th tm tp)
    /\ len l <= Z.max 0 max_posts
    /\ len locs <= len l.
Proof.
  intro Hf. destruct (analyze_posts_returns fuel posts max_posts Hf) as [d E].
  destruct (analyze_posts_bundle_of _ _ _ _ E) as (ps & -> & Hps).
  destruct (bundle_of_shape ps) as [Hb|(th & tm & tp & Hb)].
  - exists [], [], [], [], []. rewrite E, Hb. split; [reflexivity|].
    unfold len. cbn. lia.
  - exists (map post_data ps), (located ps), th, tm, tp. rewrite E, Hb.
    split; [reflexivity|]. unfold len in *. rewrite length_map.
    pose proof (length_located ps). lia.
Qed.

Lemma bundle_is_well_formed_witness :
  (Z.to_nat 1 < 5)%nat /\
  exists l locs th tm tp,
    analyze_posts 5 (iter_of [post_d; post_a] (Raises timed_out)) 1
    = Some (bundle l locs th tm tp)
    /\ len l <= Z.max 0 1
    /\ len locs <= len l.
Proof.
  assert (Z.to_nat 1 < 5)%nat as Hf by (vm_compute; lia).
  split; [exact Hf|].
  exact (bundle_is_well_formed 5 (iter_of [post_d; post_a] (Raises timed_out)) 1 Hf).
Defined.

Lemma analyze_posts_window (fuel : nat) (posts : iterator Post) (max_posts : Z)
    (ps : list Post) :
  0 <= max_posts ->
  (Z.to_nat max_posts < fuel)%nat ->
  starts_with posts ps max_posts ->
  analyze_posts fuel posts max_posts
  = Some (bundle_of (firstn (Z.to_nat max_posts) ps)).
Proof.
  intros H0 Hf [Hy Hend]. unfold analyze_posts.
  now rewrite (posts_loop_window fuel posts max_posts ps).
Qed.

Lemma starts_with_iter_of (ps : list Post) (max_posts : Z) :
  starts_with (iter_of ps StopIteration) ps max_posts.
Proof.
  split.
  - intros i p Hp. unfold iter_of. now rewrite Hp.
  - left. unfold iter_of.
    assert (nth_error ps (List.length ps) = None) as ->
      by (apply nth_error_None; lia).
    reflexivity.
Qed.

Lemma Forall_firstn {A} (P : A -> Prop) (n : nat) (l : list A) :
  Forall P l -> Forall P (firstn n l).
Proof.
  intro H. apply Forall_forall. intros x Hx. rewrite Forall_forall in H.
  apply H. rewrite <- (firstn_skipn n l). apply in_or_app. now left.
Qed.

(** X5. The bundle lists one location entry for each post of the window
    that carries a location, in the order of the posts, a location being
    listed again each time a post carries it; posts without a location
    contribute nothing. *)
Theorem locations_follow_posts (fuel : nat) (posts : iterator Post)
    (max_posts : Z) (ps : list Post) :
  0 <= max_posts ->
  (Z.to_nat max_posts < fuel)%nat ->
  Forall (fun p => valid (date_utc p) = true) ps ->
  starts_with posts ps max_posts ->
  exists d,
    analyze_posts fuel posts max_posts = Some d
    /\ dict_get d (KStr "locations")
       = Some (VList (located (firstn (Z.to_nat max_posts) ps))).
Proof.
  intros H0 Hf Hv Hs. rewrite (analyze_posts_window fuel posts max_posts ps)
    by assumption.
  eexists. split; [reflexivity|].
  set (w := firstn (Z.to_nat max_posts) ps).
  unfold bundle_of, analysis_results.
  rewrite process_post_times, process_posts_data, process_locations.
  cbn [post_times posts_data locations empty_acc app].
  destruct (analyze_posting_patterns_total (map date_utc w)) as [r ->].
  { apply Forall_map. now apply Forall_firstn. }
  reflexivity.
Qed.

Lemma locations_follow_posts_witness :
  0 <= 3 /\
  (Z.to_nat 3 < 5)%nat /\
  Forall (fun p => valid (date_utc p) = true) [post_d; post_a; post_d; post_b] /\
  starts_with (iter_of [post_d; post_a; post_d; post_b] StopIteration)
              [post_d; post_a; post_d; post_b] 3 /\
  exists d,
    analyze_posts 5 (iter_of [post_d; post_a; post_d; post_b] StopIteration) 3
    = Some d
    /\ dict_get d (KStr "locations")
       = Some (VList [location_entry post_d eiffel; location_entry post_d eiffel]).
Proof.
  assert (0 <= 3) as H0 by (vm_compute; discriminate).
  assert (Z.to_nat 3 < 5)%nat as Hf by (vm_compute; lia).
  assert (Forall (fun p => valid (date_utc p) = true)
                 [post_d; post_a; post_d; post_b]) as Hv by (repeat constructor).
  pose proof (starts_with_iter_of [post_d; post_a; post_d; post_b] 3) as Hs.
  split; [exact H0|]. split; [exact Hf|]. split; [exact Hv|]. split; [exact Hs|].
  exact (locations_follow_posts 5 _ 3 _ H0 Hf Hv Hs).
Defined.

(** X6. With a limit of 0 or below, and also when the sequence ends before
    its first post, the bundle returned is the zeroed bundle: the same
    dictionary as the one returned when the enumeration fails. *)
Theorem nothing_to_analyze_gives_zeroed_bundle (fuel : nat)
    (posts : iterator Post) (max_posts : Z) :
  (0 < fuel)%nat ->
  max_posts <= 0 \/ posts 0%nat = StopIteration ->
  analyze_posts fuel posts max_posts = Some empty_results.
Proof.
  intros Hf H. destruct fuel as [|fuel]; [lia|].
  unfold analyze_posts. cbn [posts_loop].
  destruct (posts 0%nat) as [p| |e] eqn:Ep.
  - destruct H as [H|H]; [|discriminate].
    assert ((Z.of_nat 0 >=? max_posts) = true) as ->.
    { rewrite Z.geb_leb. apply Z.leb_le. cbn. lia. }
    reflexivity.
  - reflexivity.
  - reflexivity.
Qed.

Lemma nothing_to_analyze_gives_zeroed_bundle_witness :
  (0 < 1)%nat /\
  0 <= 0 /\
  analyze_posts 1 (iter_of [post_a; post_b] StopIteration) 0 = Some empty_results.
Proof.
  assert (0 < 1)%nat as Hf by (vm_compute; lia).
  assert (0 <= 0) as H0 by (vm_compute; discriminate).
  split; [exact Hf|]. split; [exact H0|].
  exact (nothing_to_analyze_gives_zeroed_bundle 1
           (iter_of [post_a; post_b] StopIteration) 0 Hf (or_introl H0)).
Defined.

(** ** The frequency tables *)

Lemma dict_get_set {V} (d : list (key * V)) (k k' : key) (v : V) :
  dict_get (dict_set d k v) k' = if key_eqb k k' then Some v else dict_get d k'.
Proof.
  induction d as [|[k0 v0] d IH]; cbn [dict_set dict_get].
  - destruct (key_eqb k k'); reflexivity.
  - destruct (key_eqb k0 k) eqn:E0; cbn [dict_get].
    + apply key_eqb_eq in E0. subst k0. destruct (key_eqb k k'); reflexivity.
    + rewrite IH. destruct (key_eqb k0 k') eqn:E1; [|reflexivity].
      apply key_eqb_eq in E1. subst k0.
      assert (key_eqb k k' = false) as ->; [|reflexivity].
      apply key_eqb_neq. apply key_eqb_neq in E0. congruence.
Qed.

Lemma dict_get_In {V} (d : list (key * V)) (k : key) (v : V) :
  dict_get d k = Some v -> In (k, v) d.
Proof.
  induction d as [|[k0 v0] d IH]; cbn [dict_get]; [discriminate|].
  destruct (key_eqb k0 k) eqn:E.
  - apply key_eqb_eq in E. intro H. inversion H; subst. now left.
  - intro H. right. now apply IH.
Qed.

Lemma In_dict_get {V} (d : list (key * V)) (k : key) (v : V) :
  NoDup (dict_keys d) -> In (k, v) d -> dict_get d k = Some v.
Proof.
  induction d as [|[k0 v0] d IH]; intros ND Hin; [destruct Hin|].
  cbn [dict_keys map fst] in ND. inversion ND as [|? ? Hn ND']; subst.
  cbn [dict_get]. destruct Hin as [E|Hin].
  - inversion E; subst. now rewrite key_eqb_refl.
  - destruct (key_eqb k0 k) eqn:E.
    + apply key_eqb_eq in E. subst k0. exfalso. apply Hn.
      change k with (fst (k, v)). now apply in_map.
    + now apply IH.
Qed.

Lemma dict_keys_set {V} (d : list (key * V)) (k : key) (v : V) :
  dict_keys (dict_set d k v)
  = if existsb (key_eqb k) (dict_keys d) then dict_keys d else dict_keys d ++ [k].
Proof.
  unfold dict_keys. induction d as [|[k0 v0] d IH]; [reflexivity|].
  cbn [dict_set]. destruct (key_eqb k0 k) eqn:E; cbn [map fst existsb].
  - assert (key_eqb k k0 = true) as ->.
    { apply key_eqb_eq. apply key_eqb_eq in E. congruence. }
    reflexivity.
  - assert (key_eqb k k0 = false) as ->.
    { apply key_eqb_neq. apply key_eqb_neq in E. congruence. }
    cbn [orb]. rewrite IH.
    destruct (existsb (key_eqb k) (map fst d)); reflexivity.
Qed.

Lemma NoDup_dict_set {V} (d : list (key * V)) (k : key) (v : V) :
  NoDup (dict_keys d) -> NoDup (dict_keys (dict_set d k v)).
Proof.
  intro ND. rewrite dict_keys_set.
  destruct (existsb (key_eqb k) (dict_keys d)) eqn:E; [assumption|].
  apply NoDup_app; [assumption | repeat constructor; intros [] |].
  intros x Hx [<-|[]]. apply existsb_key_In in Hx. congruence.
Qed.

Lemma count_of_dict_count (d : counts) (k k' : key) :
  count_of (dict_count d k) k' = count_of d k' + (if key_eqb k k' then 1 else 0).
Proof.
  unfold count_of, dict_count. rewrite dict_get_set.
  destruct (key_eqb k k') eqn:E; [|lia].
  apply key_eqb_eq in E. now subst.
Qed.

Lemma In_dict_set {V} (d : list (key * V)) (k k0 : key) (v v0 : V) :
  In (k0, v0) (dict_set d k v) -> (k0 = k /\ v0 = v) \/ In (k0, v0) d.
Proof.
  induction d as [|[k1 v1] d IH]; cbn [dict_set].
  - intros [E|[]]. inversion E. now left.
  - destruct (key_eqb k1 k) eqn:E1.
    + apply key_eqb_eq in E1. subst k1. intros [E|H].
      * inversion E. now left.
      * right. now right.
    + intros [E|H]; [right; now left|].
      destruct (IH H) as [?|?]; [now left | right; now right].
Qed.

Lemma table_ok_count (d : counts) (tag : string) :
  table_ok d -> table_ok (dict_count d (KStr tag)).
Proof.
  intros [ND Hd]. split; [now apply NoDup_dict_set|].
  intros k n Hin. apply In_dict_set in Hin. destruct Hin as [[-> ->]|Hin].
  - split; [now exists tag|].
    destruct (dict_get d (KStr tag)) as [m|] eqn:E; [|lia].
    apply dict_get_In in E. destruct (Hd _ _ E). lia.
  - now apply Hd.
Qed.

Lemma occurrences_cons (x t : string) (l : list string) :
  occurrences x (t :: l) = (if String.eqb t x then 1 else 0) + occurrences x l.
Proof.
  unfold occurrences, len. cbn [filter]. rewrite (String.eqb_sym t x).
  destruct (String.eqb x t); cbn [List.length]; lia.
Qed.

Lemma occurrences_app (x : string) (l l' : list string) :
  occurrences x (l ++ l') = occurrences x l + occurrences x l'.
Proof.
  unfold occurrences, len. rewrite filter_app, length_app. lia.
Qed.

(** [for tag in tags: table[tag] = table.get(tag, 0) + 1] *)
Lemma count_tags (tags : list string) :
  forall d : counts,
  table_ok d ->
  table_ok (fold_left (fun h tag => dict_count h (KStr tag)) tags d)
  /\ forall x,
       count_of (fold_left (fun h tag => dict_count h (KStr tag)) tags d) (KStr x)
       = count_of d (KStr x) + occurrences x tags.
Proof.
  induction tags as [|t tags IH]; intros d Hd; cbn [fold_left].
  - split; [assumption|]. intro x. unfold occurrences, len. cbn. lia.
  - destruct (IH _ (table_ok_count d t Hd)) as [Hok Hc]. split; [assumption|].
    intro x. rewrite Hc, count_of_dict_count, occurrences_cons. cbn [key_eqb]. lia.
Qed.

Lemma process_tables (ps : list Post) :
  forall st : acc,
  table_ok (hashtags st) -> table_ok (mentions st) ->
  (table_ok (hashtags (fold_left process_post ps st))
   /\ forall x, count_of (hashtags (fold_left process_post ps st)) (KStr x)
                = count_of (hashtags st) (KStr x)
                  + occurrences x (flat_map caption_hashtags ps))
  /\ (table_ok (mentions (fold_left process_post ps st))
      /\ forall x, count_of (mentions (fold_left process_post ps st)) (KStr x)
                   = count_of (mentions st) (KStr x)
                     + occurrences x (flat_map caption_mentions ps)).
Proof.
  induction ps as [|p ps IH]; intros st Hh Hm; cbn [fold_left flat_map].
  - split; (split; [assumption|]); intro x; unfold occurrences, len; cbn; lia.
  - destruct (count_tags (caption_hashtags p) _ Hh) as [Hh1 Hc1].
    destruct (count_tags (caption_mentions p) _ Hm) as [Hm1 Hc2].
    destruct (IH (process_post st p) Hh1 Hm1) as [[Hh2 Hc3] [Hm2 Hc4]].
    split; (split; [assumption|]); intro x.
    + rewrite Hc3. cbn [process_post hashtags]. rewrite Hc1, occurrences_app. lia.
    + rewrite Hc4. cbn [process_post mentions]. rewrite Hc2, occurrences_app. lia.
Qed.

Lemma table_entries (d : counts) (f : string -> Z) :
  table_ok d ->
  (forall x, count_of d (KStr x) = f x) ->
  forall k n, In (k, n) d <-> exists tag, k = KStr tag /\ n = f tag /\ 0 < n.
Proof.
  intros [ND Hd] Hc k n. split.
  - intro Hin. destruct (Hd _ _ Hin) as [[tag ->] Hn]. exists tag.
    split; [reflexivity|]. split; [|lia].
    rewrite <- Hc. unfold count_of. now rewrite (In_dict_get d _ _ ND Hin).
  - intros (tag & -> & -> & Hpos). apply dict_get_In.
    rewrite <- Hc in *. unfold count_of in *.
    destruct (dict_get d (KStr tag)); [reflexivity | lia].
Qed.

(** X7. After the posts [ps] have been processed, the hashtag table holds
    each hashtag of their captions once, with the number of its occurrences
    in those captions, and nothing else; so does the mention table for the
    mentioned users. *)
Theorem tables_count_occurrences (ps : list Post) :
  let st := fold_left process_post ps empty_acc in
  NoDup (dict_keys (hashtags st))
  /\ (forall k n, In (k, n) (hashtags st) <->
        exists tag, k = KStr tag
                    /\ n = occurrences tag (flat_map caption_hashtags ps)
                    /\ 0 < n)
  /\ NoDup (dict_keys (mentions st))
  /\ (forall k n, In (k, n) (mentions st) <->
        exists user, k = KStr user
                     /\ n = occurrences user (flat_map caption_mentions ps)
                     /\ 0 < n).
Proof.
  assert (table_ok []) as H0.
  { split; [constructor | intros k n []]. }
  destruct (process_tables ps empty_acc H0 H0) as [[Hh Hc] [Hm Hc']].
  cbv zeta. split; [apply Hh|]. split.
  - apply table_entries; [assumption|]. intro x. rewrite Hc. reflexivity.
  - split; [apply Hm|].
    apply table_entries; [assumption|]. intro x. rewrite Hc'. reflexivity.
Qed.

Lemma insert_desc_perm (x : key * Z) (l : counts) :
  Permutation (insert_desc x l) (x :: l).
Proof.
  induction l as [|y l IH]; cbn [insert_desc]; [apply Permutation_refl|].
  destruct (snd x <? snd y); [|apply Permutation_refl].
  apply (perm_trans (l' := y :: x :: l)); [now apply perm_skip | apply perm_swap].
Qed.

Lemma sorted_desc_perm (l : counts) : Permutation (sorted_desc l) l.
Proof.
  induction l as [|x l IH]; [apply Permutation_refl|].
  cbn [sorted_desc fold_right]. fold (sorted_desc l).
  apply (perm_trans (insert_desc_perm x (sorted_desc l))). now apply perm_skip.
Qed.

Lemma insert_desc_descending (x : key * Z) (l : counts) :
  descending l -> descending (insert_desc x l).
Proof.
  induction l as [|y l IH]; intro Hd; cbn [insert_desc].
  - cbn [descending]. split; [intros z [] | exact I].
  - destruct Hd as [Hy Hl]. destruct (snd x <? snd y) eqn:E.
    + apply Z.ltb_lt in E. cbn [descending]. split; [|now apply IH].
      intros z Hz. apply (Permutation_in _ (insert_desc_perm x l)) in Hz.
      destruct Hz as [<-|Hz]; [lia | now apply Hy].
    + apply Z.ltb_ge in E. cbn [descending]. split; [|split; assumption].
      intros z [<-|Hz]; [assumption|]. specialize (Hy z Hz). lia.
Qed.

Lemma sorted_desc_descending (l : counts) : descending (sorted_desc l).
Proof.
  induction l as [|x l IH]; [exact I|].
  cbn [sorted_desc fold_right]. now apply insert_desc_descending.
Qed.

Lemma insert_desc_with_count (c : Z) (x : key * Z) (l : counts) :
  with_count c (insert_desc x l) = with_count c (x :: l).
Proof.
  induction l as [|y l IH]; cbn [insert_desc]; [reflexivity|].
  destruct (snd x <? snd y) eqn:E; [|reflexivity].
  apply Z.ltb_lt in E. unfold with_count in *. cbn [filter] in *. rewrite IH.
  destruct (snd x =? c) eqn:Ex, (snd y =? c) eqn:Ey; try reflexivity.
  apply Z.eqb_eq in Ex, Ey. lia.
Qed.

Lemma sorted_desc_with_count (c : Z) (l : counts) :
  with_count c (sorted_desc l) = with_count c l.
Proof.
  induction l as [|x l IH]; [reflexivity|].
  cbn [sorted_desc fold_right]. fold (sorted_desc l).
  rewrite insert_desc_with_count. unfold with_count in *. cbn [filter].
  now rewrite IH.
Qed.

(** X8. The lists [top_hashtags] and [top_mentions] of a bundle are the first
    20 entries of the hashtag and mention tables sorted by count: the sorted
    list holds the entries of the table, its counts never go up, and entries
    with equal counts stay in the order in which the table first saw them. *)
Theorem top_lists_are_sorted_tables (st : acc) :
  Forall (fun t => valid t = true) (post_times st) ->
  exists d sh sm,
    analysis_results st = Ok d
    /\ dict_get d (KStr "top_hashtags") = Some (VList (count_items (firstn 20 sh)))
    /\ dict_get d (KStr "top_mentions") = Some (VList (count_items (firstn 20 sm)))
    /\ (List.length (count_items (firstn 20 sh)) <= 20)%nat
    /\ (List.length (count_items (firstn 20 sm)) <= 20)%nat
    /\ Permutation sh (hashtags st) /\ descending sh
    /\ (forall c, with_count c sh = with_count c (hashtags st))
    /\ Permutation sm (mentions st) /\ descending sm
    /\ (forall c, with_count c sm = with_count c (mentions st)).
Proof.
  intro Hv. unfold analysis_results.
  destruct (analyze_posting_patterns_total _ Hv) as [tp ->]. cbn [bind].
  eexists _, (sorted_desc (hashtags st)), (sorted_desc (mentions st)).
  split; [reflexivity|]. split; [reflexivity|]. split; [reflexivity|].
  split; [unfold count_items; rewrite length_map; apply firstn_le_length|].
  split; [unfold count_items; rewrite length_map; apply firstn_le_length|].
  split; [apply sorted_desc_perm|]. split; [apply sorted_desc_descending|].
  split; [intro c; apply sorted_desc_with_count|].
  split; [apply sorted_desc_perm|]. split; [apply sorted_desc_descending|].
  intro c; apply sorted_desc_with_count.
Qed.

Lemma top_lists_are_sorted_tables_witness :
  let st := fold_left process_post [post_a; post_b; post_d] empty_acc in
  Forall (fun t => valid t = true) (post_times st) /\
  exists d sh sm,
    analysis_results st = Ok d
    /\ dict_get d (KStr "top_hashtags") = Some (VList (count_items (firstn 20 sh)))
    /\ dict_get d (KStr "top_mentions") = Some (VList (count_items (firstn 20 sm)))
    /\ descending sh /\ descending sm.
Proof.
  cbv zeta.
  assert (Forall (fun t => valid t = true)
            (post_times (fold_left process_post [post_a; post_b; post_d] empty_acc)))
    as Hv by (repeat constructor).
  split; [exact Hv|].
  destruct (top_lists_are_sorted_tables _ Hv)
    as (d & sh & sm & E & Hh & Hm & _ & _ & _ & Dh & _ & _ & Dm & _).
  exists d, sh, sm. split; [exact E|]. split; [exact Hh|]. split; [exact Hm|].
  split; [exact Dh | exact Dm].
Defined.

(** ** Further properties of the connections *)

Lemma filter_none {A} (f : A -> bool) (l : list A) :
  (forall x, In x l -> f x = false) -> filter f l = [].
Proof.
  induction l as [|x l IH]; intro H; [reflexivity|].
  cbn [filter]. rewrite (H x) by now left. apply IH. intros y Hy. apply H. now right.
Qed.

Lemma length_usernames_not_in (xs ys : list connection) :
  (List.length (usernames_not_in xs ys) <= List.length xs)%nat.
Proof. unfold usernames_not_in. rewrite length_map. apply filter_length_le. Qed.

(** X9. When both enumerations succeed, the connection data hold the
    followers and followees in the order the provider yielded them, with
    counts equal to the lengths of these lists; the two derived lists are no
    longer than the list they are taken from and have no handle in common,
    and a handle that is both a follower's and a followee's is in neither. *)
Theorem connection_data_is_consistent (fs gs : node_sequence) :
  failure fs = None ->
  failure gs = None ->
  let followers := map connection_of (nodes fs) in
  let following := map connection_of (nodes gs) in
  exists nfb nfd,
    analyze_connections false true fs gs
    = [(KStr "followers_count", VInt (len (nodes fs)));
       (KStr "following_count", VInt (len (nodes gs)));
       (KStr "not_following_back", VList (map VStr nfb));
       (KStr "not_followed_back", VList (map VStr nfd));
       (KStr "followers", VList (map connection_dict followers));
       (KStr "following", VList (map connection_dict following))]
    /\ len nfb <= len (nodes gs)
    /\ len nfd <= len (nodes fs)
    /\ (forall u, In u nfb -> ~ In u nfd)
    /\ (forall u, In u (handles followers) -> In u (handles following) ->
                  ~ In u nfb /\ ~ In u nfd).
Proof.
  intros Hf Hg. cbv zeta. unfold analyze_connections, collect.
  rewrite Hf, Hg. cbn [negb bind try_except]. unfold connections_data.
  eexists _, _. split.
  - unfold len. rewrite !length_map. reflexivity.
  - split; [|split; [|split]].
    + pose proof (length_usernames_not_in (map connection_of (nodes gs))
                    (map connection_of (nodes fs))) as H.
      unfold len. rewrite length_map in H. lia.
    + pose proof (length_usernames_not_in (map connection_of (nodes fs))
                    (map connection_of (nodes gs))) as H.
      unfold len. rewrite length_map in H. lia.
    + intros u H1 H2. apply usernames_not_in_spec in H1, H2. tauto.
    + intros u H1 H2. unfold handles in *. split; intro H;
        apply usernames_not_in_spec in H; tauto.
Qed.

Lemma connection_data_is_consistent_witness :
  failure two_followers = None /\
  failure one_followee = None /\
  exists nfb nfd,
    analyze_connections false true two_followers one_followee
    = [(KStr "followers_count", VInt 2);
       (KStr "following_count", VInt 1);
       (KStr "not_following_back", VList (map VStr nfb));
       (KStr "not_followed_back", VList (map VStr nfd));
       (KStr "followers",
         VList [connection_dict (connection_of ann_node);
                connection_dict (connection_of bob_node)]);
       (KStr "following", VList [connection_dict (connection_of bob_node)])]
    /\ len nfb <= 1
    /\ len nfd <= 2.
Proof.
  assert (failure two_followers = None) as Hf by reflexivity.
  assert (failure one_followee = None) as Hg by reflexivity.
  split; [exact Hf|]. split; [exact Hg|].
  destruct (connection_data_is_consistent two_followers one_followee Hf Hg)
    as (nfb & nfd & E & H1 & H2 & _).
  exists nfb, nfd. split; [exact E|]. split; [exact H1 | exact H2].
Defined.

(** X10. When the followers and the followees carry the same handles, in
    whatever order and however often, both derived lists are empty. *)
Theorem same_handles_no_difference (followers following : list connection) :
  (forall u, In u (handles followers) <-> In u (handles following)) ->
  dict_get (connections_data followers following) (KStr "not_following_back")
  = Some (VList [])
  /\ dict_get (connections_data followers following) (KStr "not_followed_back")
     = Some (VList []).
Proof.
  intro H. unfold connections_data, usernames_not_in, handles in *.
  rewrite (filter_none _ following), (filter_none _ followers).
  - split; reflexivity.
  - intros x Hx. apply negb_false_iff. apply str_in_In. apply H. now apply in_map.
  - intros x Hx. apply negb_false_iff. apply str_in_In. apply H. now apply in_map.
Qed.

Lemma same_handles_no_difference_witness :
  (forall u, In u (handles [ann; bob; ann]) <-> In u (handles [bob; ann])) /\
  dict_get (connections_data [ann; bob; ann] [bob; ann]) (KStr "not_following_back")
  = Some (VList []).
Proof.
  assert (forall u, In u (handles [ann; bob; ann]) <-> In u (handles [bob; ann]))
    as H by (intro u; cbn; tauto).
  split; [exact H|].
  exact (proj1 (same_handles_no_difference [ann; bob; ann] [bob; ann] H)).
Defined.

(** ** Further properties of presence probing *)

Lemma platform_of_sites (target : string) :
  map platform (sites_to_check target) = platform_labels.
Proof. reflexivity. Qed.

Lemma check_url_fields (get : http_get) (url : string) :
  dict_get (check_url get url) (KStr "platform") = Some (VStr (platform url))
  /\ (dict_get (check_url get url) (KStr "status") = Some (VStr "Found")
      \/ dict_get (check_url get url) (KStr "status") = Some (VStr "Not found")
      \/ dict_get (check_url get url) (KStr "status") = Some (VStr "Error")).
Proof.
  unfold check_url. destruct (get url) as [code|e]; cbn [bind try_except].
  - destruct (code =? 200); split; auto.
  - split; auto.
Qed.

(** X11. Whatever the target handle, the network and the order in which the
    probes complete, [search_external_references] returns seven entries, for
    the platforms Twitter, Facebook, Tiktok, Reddit, Linkedin, Github and
    Youtube in this order, each with the probed URL and one of the statuses
    Found, Not found and Error: the handle never changes a platform label. *)
Theorem seven_platforms_in_order (get : http_get) (target : string)
    (schedule : list nat) :
  Permutation schedule (seq 0 7) ->
  exists results,
    search_external_references get target schedule = Some results
    /\ map (fun r => dict_get r (KStr "platform")) results
       = map (fun l => Some (VStr l)) platform_labels
    /\ map (fun r => dict_get r (KStr "url")) results
       = map (fun u => Some (VStr u)) (sites_to_check target)
    /\ Forall (fun r =>
                 dict_get r (KStr "status") = Some (VStr "Found")
                 \/ dict_get r (KStr "status") = Some (VStr "Not found")
                 \/ dict_get r (KStr "status") = Some (VStr "Error")) results.
Proof.
  intro Hp. unfold search_external_references, probe.
  rewrite executor_map_ordered by exact Hp.
  eexists. split; [reflexivity|]. split; [|split].
  - rewrite map_map. rewrite <- platform_of_sites with (target := target).
    rewrite map_map. apply map_ext. intro u. apply check_url_fields.
  - rewrite map_map. apply map_ext. intro u. apply check_url_url.
  - apply Forall_map. apply Forall_forall. intros u _. apply check_url_fields.
Qed.

Lemma seven_platforms_in_order_witness :
  Permutation (seq 0 7) (seq 0 7) /\
  exists results,
    search_external_references sample_net "alice" (seq 0 7) = Some results
    /\ map (fun r => dict_get r (KStr "platform")) results
       = map (fun l => Some (VStr l)) platform_labels.
Proof.
  assert (Permutation (seq 0 7) (seq 0 7)) as Hp by apply Permutation_refl.
  split; [exact Hp|].
  destruct (seven_platforms_in_order sample_net "alice" (seq 0 7) Hp)
    as (results & E & Hl & _).
  exists results. split; [exact E | exact Hl].
Defined.

(** ** Further properties of the CSV export *)

Lemma dict_to_list_length (keys : list key) (r : dict) (cs : row) :
  dict_to_list keys r = Ok cs -> List.length cs = List.length keys.
Proof.
  unfold dict_to_list. destruct (filter _ _); [|discriminate].
  intro H. inversion H. apply length_map.
Qed.

Lemma writerows_widths (keys : list key) (rs : list dict) :
  forall file,
  Forall (fun r => List.length r = List.length keys) file ->
  Forall (fun r => List.length r = List.length keys) (fst (writerows keys rs file)).
Proof.
  induction rs as [|r rs IH]; intros file Hf; cbn [writerows]; [assumption|].
  destruct (dict_to_list keys r) as [cs|e] eqn:E; [|assumption].
  apply IH. apply Forall_app. split; [assumption|].
  constructor; [|constructor]. now apply dict_to_list_length with (r := r).
Qed.

Lemma write_table_rectangular (recs : list dict) :
  rectangular (fst (write_table recs)).
Proof.
  destruct recs as [|first rest]; [exists 0%nat; constructor|].
  exists (List.length (dict_keys first)). unfold write_table.
  apply writerows_widths. constructor; [apply length_map | constructor].
Qed.

(** X12. Every file the CSV export writes is rectangular: all its rows,
    header included, have the same number of cells, also in a file left
    unfinished by an error. *)
Theorem csv_files_are_rectangular (output_file : string) (profile_data : dict)
    (posts_data locations : list dict) (name : string) (rows : list row) :
  In (name, rows)
     (fst (export_results_csv output_file profile_data posts_data locations)) ->
  rectangular rows.
Proof.
  assert (rectangular [map key_value (dict_keys profile_data);
                       dict_values profile_data]) as Hp.
  { exists (List.length profile_data).
    unfold dict_keys, dict_values. repeat constructor; now rewrite ?length_map. }
  pose proof (write_table_rectangular posts_data) as Rp.
  pose proof (write_table_rectangular locations) as Rl.
  unfold export_results_csv. intro Hin.
  destruct posts_data as [|p ps], locations as [|l ls];
    try set (wp := write_table (p :: ps)) in *;
    try set (wl := write_table (l :: ls)) in *;
    cbn [fst snd app] in Hin.
  - destruct Hin as [E|[]]. injection E as _ <-. exact Hp.
  - destruct Hin as [E|[E|[]]]; injection E as _ <-; assumption.
  - destruct (snd wp); cbn [fst snd app] in Hin;
      destruct Hin as [E|[E|[]]]; injection E as _ <-; assumption.
  - destruct (snd wp); cbn [fst snd app] in Hin.
    + destruct Hin as [E|[E|[E|[]]]]; injection E as _ <-; assumption.
    + destruct Hin as [E|[E|[]]]; injection E as _ <-; assumption.
Qed.

Lemma csv_files_are_rectangular_witness :
  In ("out_posts.csv", [[VStr "a"]; [VInt 1]])
     (fst (export_results_csv "out" rec_a1 [rec_a1; rec_a2_b3] [rec_b3]))
  /\ rectangular [[VStr "a"]; [VInt 1]].
Proof.
  assert (In ("out_posts.csv", [[VStr "a"]; [VInt 1]])
             (fst (export_results_csv "out" rec_a1 [rec_a1; rec_a2_b3] [rec_b3])))
    as Hin by (vm_compute; tauto).
  split; [exact Hin|].
  exact (csv_files_are_rectangular "out" rec_a1 [rec_a1; rec_a2_b3] [rec_b3]
           _ _ Hin).
Defined.

Lemma write_table_uniform (keys : list key) (recs : list dict) :
  Forall (fun r => dict_keys r = keys) recs ->
  write_table recs = (match recs with
                      | [] => []
                      | _ :: _ => map key_value keys :: map (cells keys) recs
                      end, Ok tt).
Proof.
  intro H. destruct recs as [|first rest]; [reflexivity|].
  inversion H as [|? ? Hk Hrest]; subst. unfold write_table.
  rewrite writerows_within; [reflexivity|].
  apply Forall_forall. intros r Hr. rewrite Forall_forall in H.
  intros k Hk. now rewrite (H r Hr) in Hk.
Qed.

Lemma export_results_csv_uniform (output_file : string) (profile_data : dict)
    (ks ls : list key) (posts_data locations : list dict) :
  Forall (fun r => dict_keys r = ks) posts_data ->
  Forall (fun r => dict_keys r = ls) locations ->
  export_results_csv output_file profile_data posts_data locations
  = ([((output_file ++ "_profile.csv")%string,
       [map key_value (dict_keys profile_data); dict_values profile_data])]
     ++ table_file (output_file ++ "_posts.csv")%string ks posts_data
     ++ table_file (output_file ++ "_locations.csv")%string ls locations,
     Ok tt).
Proof.
  intros Hp Hl. unfold export_results_csv.
  pose proof (write_table_uniform ks posts_data Hp) as Ep.
  pose proof (write_table_uniform ls locations Hl) as El.
  destruct posts_data as [|p ps]; cbn [fst snd table_file app].
  - destruct locations as [|l ls']; cbn [table_file]; [reflexivity|].
    rewrite El. reflexivity.
  - rewrite Ep. cbn [fst snd].
    destruct locations as [|l ls']; cbn [table_file app]; [reflexivity|].
    rewrite El. reflexivity.
Qed.

Lemma dicts_in_post_data (ps : list Post) :
  exists recs,
    dicts_in (map post_data ps) = Some recs
    /\ List.length recs = List.length ps
    /\ Forall (fun r => dict_keys r = post_field_names) recs.
Proof.
  induction ps as [|p ps (recs & E & Hl & Hk)].
  - exists []. repeat split; constructor.
  - eexists. cbn [map post_data dicts_in]. rewrite E. split; [reflexivity|].
    split; [cbn [List.length]; now rewrite Hl|].
    constructor; [reflexivity | assumption].
Qed.

Lemma dicts_in_located (ps : list Post) :
  exists recs,
    dicts_in (located ps) = Some recs
    /\ List.length recs = List.length (located ps)
    /\ Forall (fun r => dict_keys r = location_field_names) recs.
Proof.
  induction ps as [|p ps (recs & E & Hl & Hk)].
  - exists []. repeat split; constructor.
  - cbn [located flat_map]. fold (located ps). destruct (location p) as [l|].
    + eexists. cbn [app location_entry dicts_in]. rewrite E.
      split; [reflexivity|]. split; [cbn [List.length]; now rewrite Hl|].
      constructor; [reflexivity | assumption].
    + exists recs. auto.
Qed.

(** ** The whole scan *)

Lemma run_returns (P : provider) (target : string) (max_posts : Z)
    (external_search : bool) (get : http_get) (now : datetime)
    (fuel : nat) (schedule : list nat) (profile : Profile.t) :
  from_username P = Ok profile ->
  (Z.to_nat max_posts < fuel)%nat ->
  (external_search = true -> Permutation schedule (seq 0 7)) ->
  exists posts_analysis,
    analyze_posts fuel (get_posts P) max_posts = Some posts_analysis
    /\ run P target max_posts external_search get now fuel schedule
       = Some (Returns
           {| profile_data := profile_data_of profile now;
              posts_analysis := posts_analysis;
              connections :=
                if is_logged_in P && negb (Profile.is_private profile)
                then Some (analyze_connections false true
                             (get_followers P) (get_followees P))
                else None;
              external_refs :=
                if external_search
                then Some (map (check_url get) (sites_to_check target))
                else None |}).
Proof.
  intros Hp Hf Hs. destruct (analyze_posts_returns fuel (get_posts P) max_posts Hf)
    as [d E].
  exists d. split; [exact E|]. unfold run, get_profile_data. rewrite Hp, E.
  assert ((if external_search
           then option_map Some (search_external_references get target schedule)
           else Some None)
          = Some (if external_search
                  then Some (map (check_url get) (sites_to_check target))
                  else None)) as ->.
  { destruct external_search; [|reflexivity].
    unfold search_external_references, probe.
    rewrite executor_map_ordered by (apply Hs; reflexivity). reflexivity. }
  destruct (is_logged_in P), (Profile.is_private profile); reflexivity.
Qed.

(** X13. A scan whose profile lookup succeeds runs to its end, and the
    connections are analysed only for a caller who is logged in looking at a
    profile that is not private: otherwise [run] passes no connections to the
    export, and the exported document holds the empty dictionary for them,
    not the two empty lists [analyze_connections] returns when it gives up.
    Likewise no external references are passed, and the document holds the
    empty list, unless the external search was asked for. *)
Theorem run_gates_connections_and_probing (P : provider) (target : string)
    (max_posts : Z) (external_search : bool) (get : http_get) (now : datetime)
    (fuel : nat) (schedule : list nat) (profile : Profile.t) (timestamp : string) :
  from_username P = Ok profile ->
  (Z.to_nat max_posts < fuel)%nat ->
  (external_search = true -> Permutation schedule (seq 0 7)) ->
  exists s,
    run P target max_posts external_search get now fuel schedule = Some (Returns s)
    /\ profile_data s = profile_data_of profile now
    /\ (if is_logged_in P && negb (Profile.is_private profile)
        then connections s
             = Some (analyze_connections false true
                       (get_followers P) (get_followees P))
        else connections s = None
             /\ dict_get (scan_results target timestamp s) (KStr "connections")
                = Some (VDict []))
    /\ (if external_search
        then external_refs s = Some (map (check_url get) (sites_to_check target))
        else external_refs s = None
             /\ dict_get (scan_results target timestamp s)
                         (KStr "external_references")
                = Some (VList [])).
Proof.
  intros Hp Hf Hs.
  destruct (run_returns P target max_posts external_search get now fuel schedule
              profile Hp Hf Hs) as (d & _ & E).
  eexists. split; [exact E|]. cbn [profile_data connections external_refs].
  split; [reflexivity|]. split.
  - destruct (is_logged_in P && negb (Profile.is_private profile));
      [reflexivity | split; reflexivity].
  - destruct external_search; [reflexivity | split; reflexivity].
Qed.

Lemma run_gates_connections_and_probing_witness :
  from_username private_alice = Ok alice_profile /\
  (Z.to_nat 5 < 10)%nat /\
  exists s,
    run private_alice "alice" 5 false sample_net monday_10 10 [] = Some (Returns s)
    /\ connections s = None
    /\ dict_get (scan_results "alice" "20261102_100000" s) (KStr "connections")
       = Some (VDict [])
    /\ external_refs s = None.
Proof.
  assert (from_username private_alice = Ok alice_profile) as Hp by reflexivity.
  assert (Z.to_nat 5 < 10)%nat as Hf by (vm_compute; lia).
  assert (false = true -> Permutation (@nil nat) (seq 0 7)) as Hs by discriminate.
  split; [exact Hp|]. split; [exact Hf|].
  destruct (run_gates_connections_and_probing private_alice "alice" 5 false
              sample_net monday_10 10 [] alice_profile "20261102_100000" Hp Hf Hs)
    as (s & E & _ & [Hc Hd] & [He _]).
  exists s. split; [exact E|]. split; [exact Hc|]. split; [exact Hd | exact He].
Defined.

(** X14. A scan whose profile lookup fails ends the process with status 1,
    whatever the posts, the connections, the network and the options are: no
    exception of the lookup reaches the caller of [run], and nothing is
    analysed. *)
Theorem failed_lookup_exits (P : provider) (e : exn) :
  from_username P = Raise e ->
  forall (target : string) (max_posts : Z) (external_search : bool)
         (get : http_get) (now : datetime) (fuel : nat) (schedule : list nat),
    run P target max_posts external_search get now fuel schedule
    = Some (SysExit 1).
Proof.
  intros H target max_posts external_search get now fuel schedule.
  unfold run, get_profile_data. now rewrite H.
Qed.

Lemma failed_lookup_exits_witness :
  from_username nobody = Raise (ValueError "profile does not exist") /\
  run nobody "nobody" 50 true sample_net monday_10 0 [] = Some (SysExit 1).
Proof.
  assert (from_username nobody = Raise (ValueError "profile does not exist"))
    as H by reflexivity.
  split; [exact H|].
  exact (failed_lookup_exits nobody _ H "nobody" 50 true sample_net monday_10
           0%nat []).
Defined.

(** X15. The CSV export of a completed scan does not raise: the records
    built by [analyze_posts] all have the same fields. It writes the profile
    file, a posts file with the ten post fields as header and one row for
    each post analysed, and a locations file with the five location fields
    and one row for each location, a file being left out when it would have
    no row. *)
Theorem csv_export_of_a_scan_succeeds (P : provider) (target : string)
    (max_posts : Z) (external_search : bool) (get : http_get) (now : datetime)
    (fuel : nat) (schedule : list nat) (s : scan)
    (results_dir : string) (export_time : datetime) :
  run P target max_posts external_search get now fuel schedule = Some (Returns s) ->
  let out := output_file results_dir target (strftime_compact export_time) in
  exists l locs th tm tp posts_data locations,
    posts_analysis s = bundle l locs th tm tp
    /\ dicts_in l = Some posts_data
    /\ List.length posts_data = List.length l
    /\ dicts_in locs = Some locations
    /\ List.length locations = List.length locs
    /\ export_scan_csv results_dir target export_time s
       = Some ([((out ++ "_profile.csv")%string,
                 [map key_value (dict_keys (profile_data s));
                  dict_values (profile_data s)])]
               ++ table_file (out ++ "_posts.csv")%string post_field_names posts_data
               ++ table_file (out ++ "_locations.csv")%string
                             location_field_names locations,
               Ok tt).
Proof.
  intros Hrun out. unfold run in Hrun.
  destruct (get_profile_data (from_username P) now) as [[profile pd]|c];
    [|discriminate].
  destruct (analyze_posts fuel (get_posts P) max_posts) as [d|] eqn:E;
    [|discriminate].
  destruct (if external_search
            then option_map Some (search_external_references get target schedule)
            else Some None) as [refs|]; [|discriminate].
  inversion Hrun; subst s. clear Hrun. cbn [posts_analysis profile_data].
  destruct (analyze_posts_bundle_of _ _ _ _ E) as (ps & -> & _).
  assert (exists l locs th tm tp,
            bundle_of ps = bundle l locs th tm tp
            /\ (exists recs, dicts_in l = Some recs
                  /\ List.length recs = List.length l
                  /\ Forall (fun r => dict_keys r = post_field_names) recs)
            /\ (exists recs, dicts_in locs = Some recs
                  /\ List.length recs = List.length locs
                  /\ Forall (fun r => dict_keys r = location_field_names) recs))
    as (l & locs & th & tm & tp & Hb & (precs & Ep & Lp & Kp) & (lrecs & El & Ll & Kl)).
  { destruct (bundle_of_shape ps) as [Hb|(th & tm & tp & Hb)].
    - exists [], [], [], [], []. split; [exact Hb|].
      split; exists []; repeat split; constructor.
    - exists (map post_data ps), (located ps), th, tm, tp. split; [exact Hb|].
      split.
      + destruct (dicts_in_post_data ps) as (recs & H1 & H2 & H3).
        exists recs. rewrite length_map. auto.
      + apply dicts_in_located. }
  exists l, locs, th, tm, tp, precs, lrecs.
  split; [exact Hb|]. split; [exact Ep|]. split; [exact Lp|].
  split; [exact El|]. split; [exact Ll|].
  unfold export_scan_csv, records. cbn [posts_analysis profile_data].
  rewrite Hb. unfold bundle.
  cbn [dict_get key_eqb String.eqb Ascii.eqb Bool.eqb]. rewrite Ep, El.
  fold out. now rewrite (export_results_csv_uniform out _ _ _ _ _ Kp Kl).
Qed.

Lemma csv_export_of_a_scan_succeeds_witness :
  exists s files,
    run public_carol "carol" 5 false sample_net monday_10 10 [] = Some (Returns s)
    /\ export_scan_csv "results" "carol" monday_14 s = Some (files, Ok tt)
    /\ List.length files = 3%nat.
Proof.
  assert (exists s, run public_carol "carol" 5 false sample_net monday_10 10 []
                    = Some (Returns s)) as [s Hrun]
    by (eexists; vm_compute; reflexivity).
  destruct (csv_export_of_a_scan_succeeds public_carol "carol" 5 false sample_net
              monday_10 10 [] s "results" monday_14 Hrun)
    as (l & locs & th & tm & tp & pd & ld & Hb & Ep & Lp & El & Ll & E).
  exists s. eexists. split; [exact Hrun|]. split; [exact E|].
  vm_compute in Hrun. inversion Hrun; subst s. clear Hrun.
  vm_compute in Hb. inversion Hb; subst. clear Hb.
  vm_compute in Ep. inversion Ep; subst. vm_compute in El. inversion El; subst.
  reflexivity.
Defined.

(** ** Independence properties *)

Lemma posts_loop_agree (fuel : nat) :
  forall (posts posts' : iterator Post) (max_posts : Z) (i : nat) (st : acc),
  (forall j, Z.of_nat j <= Z.max 0 max_posts -> posts j = posts' j) ->
  Z.of_nat i <= Z.max 0 max_posts ->
  posts_loop fuel posts max_posts i st = posts_loop fuel posts' max_posts i st.
Proof.
  induction fuel as [|fuel IH]; intros posts posts' max_posts i st Hag Hi;
    [reflexivity|].
  cbn [posts_loop]. rewrite <- (Hag i Hi).
  destruct (posts i) as [p| |e]; try reflexivity.
  destruct (Z.of_nat i >=? max_posts) eqn:E; [reflexivity|].
  rewrite Z.geb_leb in E. apply Z.leb_gt in E.
  apply IH; [assumption | lia].
Qed.

(** X16. The bundle, and the number of posts taken, depend on the first
    [limit + 1] items of the provider's sequence only: two sequences that
    agree on these items, whatever they do afterwards, give the same bundle.
    Nothing beyond that item is ever looked at. *)
Theorem bundle_depends_on_window_only (fuel : nat) (posts posts' : iterator Post)
    (max_posts : Z) :
  (forall j, Z.of_nat j <= Z.max 0 max_posts -> posts j = posts' j) ->
  analyze_posts fuel posts max_posts = analyze_posts fuel posts' max_posts
  /\ posts_consumed fuel posts max_posts = posts_consumed fuel posts' max_posts.
Proof.
  intro H. unfold analyze_posts, posts_consumed.
  rewrite (posts_loop_agree fuel posts posts' max_posts 0 empty_acc H) by lia.
  split; reflexivity.
Qed.

Lemma bundle_depends_on_window_only_witness :
  (forall j, Z.of_nat j <= Z.max 0 1 ->
     iter_of [post_a; post_b; post_c] StopIteration j
     = iter_of [post_a; post_b] (Raises timed_out) j)
  /\ analyze_posts 5 (iter_of [post_a; post_b; post_c] StopIteration) 1
     = analyze_posts 5 (iter_of [post_a; post_b] (Raises timed_out)) 1.
Proof.
  assert (forall j, Z.of_nat j <= Z.max 0 1 ->
            iter_of [post_a; post_b; post_c] StopIteration j
            = iter_of [post_a; post_b] (Raises timed_out) j) as H.
  { intros [|[|j]] Hj; [reflexivity | reflexivity | cbn in Hj; lia]. }
  split; [exact H|].
  exact (proj1 (bundle_depends_on_window_only 5 _ _ 1 H)).
Defined.

Lemma count_where_perm (p : datetime -> bool) (ts ts' : list datetime) :
  Permutation ts ts' -> count_where p ts = count_where p ts'.
Proof.
  intro H. induction H as [|t l l' H IH|t u l|l l' l'' H1 IH1 H2 IH2].
  - reflexivity.
  - rewrite !count_where_cons. lia.
  - rewrite !count_where_cons. lia.
  - lia.
Qed.

(** X17. The histograms and the most active day and hour do not depend on
    the order of the timestamps: permuting the input changes none of these
    four entries of the summary. *)
Theorem histograms_ignore_input_order (ts ts' : list datetime) :
  ts <> [] ->
  Forall (fun t => valid t = true) ts ->
  Permutation ts ts' ->
  exists r r',
    analyze_posting_patterns ts = Ok r
    /\ analyze_posting_patterns ts' = Ok r'
    /\ forall k, In k ["day_activity"; "hour_activity";
                       "most_active_day"; "most_active_hour"] ->
                 dict_get r (KStr k) = dict_get r' (KStr k).
Proof.
  intros Hne Hv Hp.
  assert (ts' <> []) as Hne'.
  { intros ->. apply Permutation_sym, Permutation_nil in Hp. contradiction. }
  assert (Forall (fun t => valid t = true) ts') as Hv'.
  { apply Forall_forall. intros t Ht. rewrite Forall_forall in Hv. apply Hv.
    now apply (Permutation_in _ (Permutation_sym Hp)). }
  assert (day_histogram ts' = day_histogram ts) as Ed.
  { apply hist_ext. intros k _. symmetry. now apply count_where_perm. }
  assert (hour_histogram ts' = hour_histogram ts) as Eh.
  { apply hist_ext. intros k _. symmetry. now apply count_where_perm. }
  destruct ts as [|t ts]; [congruence|]. destruct ts' as [|t' ts']; [congruence|].
  unfold analyze_posting_patterns.
  rewrite !tally_histograms by assumption. cbn [bind fst snd]. rewrite Ed, Eh.
  destruct (max_by_count_first (day_histogram (t :: ts))) as (kd & nd & -> & _);
    [discriminate|].
  destruct (max_by_count_first (hour_histogram (t :: ts))) as (kh & nh & -> & _);
    [discriminate|].
  destruct (post_frequency_days_ok (t :: ts)) as [f ->].
  destruct (post_frequency_days_ok (t' :: ts')) as [f' ->].
  cbn [bind fst]. eexists _, _. split; [reflexivity|]. split; [reflexivity|].
  intros k Hk. cbn [In] in Hk.
  destruct Hk as [<-|[<-|[<-|[<-|[]]]]]; reflexivity.
Qed.

Lemma histograms_ignore_input_order_witness :
  oldest_first <> [] /\
  Forall (fun t => valid t = true) oldest_first /\
  Permutation oldest_first newest_first /\
  exists r r',
    analyze_posting_patterns oldest_first = Ok r
    /\ analyze_posting_patterns newest_first = Ok r'
    /\ dict_get r (KStr "most_active_day") = dict_get r' (KStr "most_active_day")
    /\ dict_get r (KStr "day_activity") = dict_get r' (KStr "day_activity").
Proof.
  assert (oldest_first <> []) as Hne by discriminate.
  assert (Forall (fun t => valid t = true) oldest_first) as Hv
    by (repeat constructor).
  assert (Permutation oldest_first newest_first) as Hp by apply perm_swap.
  split; [exact Hne|]. split; [exact Hv|]. split; [exact Hp|].
  destruct (histograms_ignore_input_order oldest_first newest_first Hne Hv Hp)
    as (r & r' & E & E' & H).
  exists r, r'. split; [exact E|]. split; [exact E'|]. split.
  - apply H. cbn. tauto.
  - apply H. cbn. tauto.
Defined.

(** ** The float quotient on sample quotients *)

(** [3 / 7] is 0.42857142857142855 and [2 / 10] is 0.2 as doubles. *)
Example three_sevenths :
  float_quotient 3 7 = Qmake 7720456504063707 18014398509481984
  /\ float_quotient 2 10 = Qmake 3602879701896397 18014398509481984
  /\ float_quotient 2 1 = inject_Z 2
  /\ float_quotient 9007199254740993 1 = inject_Z 9007199254740992.
Proof. repeat split; vm_compute; reflexivity. Qed.

(** The float quotient is the quotient the Standard Library's IEEE 754
    division gives. *)
Example agrees_with_ieee_division :
  Forall (fun ab => ieee_quotient (fst ab) (snd ab)
                    = Some (float_quotient (Z.pos (fst ab)) (Z.pos (snd ab))))
         [(3, 7); (2, 10); (2, 1); (50, 49); (1, 3); (7, 3652059); (12, 365);
          (9007199254740993, 1); (9007199254740995, 1); (5, 4)]%positive.
Proof. repeat constructor. Qed.
